(** * RasterizedSource: windowed rasterization of labelled vector geometry

    A shallow embedding of [rastervision/data/raster_source/rasterized_source.py]:
    the window rasterizer [geojson_to_raster] and the [RasterizedSource]
    life cycle ([_activate], [_deactivate], [_get_chip]).

    Conventions.
    - Python ints are [Z]; coordinates handed to shapely are floats, read here
      as exact rationals [Q].
    - numpy arrays carry their dtype and shape next to their rows; a value
      written into an unsigned 8-bit array is stored modulo 2^8.
    - The geometry engine behind shapely (clipping, buffering), the STR-tree
      and rasterio's [rasterize] are not part of the repository: inside
      [Section Rasterizer] they are parameters.  [Module Ref] gives one small
      exact instance that the examples are run on. *)

From Stdlib Require Import ZArith QArith Qround Qminmax List Bool Lia Lqa.
Import ListNotations.
Open Scope Z_scope.

(** ** Exceptions and results *)

Inductive Exception : Type :=
| ActivationError
| AttributeError
| ValueError
| IndexError.

Inductive Result (A : Type) : Type :=
| Ok (a : A)
| Raise (e : Exception).
Arguments Ok {A} a.
Arguments Raise {A} e.

Definition bind {A B : Type} (r : Result A) (k : A -> Result B) : Result B :=
  match r with
  | Ok a => k a
  | Raise e => Raise e
  end.

Notation "x <- r ;; k" := (bind r (fun x => k))
  (at level 61, r at next level, right associativity).

(** ** Geometry values, as shapely exposes them *)

(** A coordinate: x, y and an optional z. *)
Definition Coord : Type := (Q * Q * option Q)%type.

#[local] Set Warnings "-register-all".
Inductive Geometry : Type :=
| Point (cs : list Coord)
| LineString (cs : list Coord)
| Polygon (rings : list (list Coord))
| MultiPoint (cs : list Coord)
| MultiLineString (lines : list (list Coord))
| MultiPolygon (polys : list (list (list Coord)))
| GeometryCollection (geoms : list Geometry).

(** Every coordinate of a geometry, in storage order. *)
Fixpoint coords (g : Geometry) : list Coord :=
  match g with
  | Point cs => cs
  | LineString cs => cs
  | Polygon rings => concat rings
  | MultiPoint cs => cs
  | MultiLineString lines => concat lines
  | MultiPolygon polys => concat (map (@concat Coord) polys)
  | GeometryCollection geoms => flat_map coords geoms
  end.

(** [s.is_empty]: the geometry has no point at all. *)
Definition is_empty (g : Geometry) : bool :=
  match coords g with
  | [] => true
  | _ :: _ => false
  end.

(** [type(s) is shapely.geometry.LineString]: identity of the class, so a
    MultiLineString or a GeometryCollection does not pass. *)
Definition is_LineString (g : Geometry) : bool :=
  match g with
  | LineString _ => true
  | _ => false
  end.

Fixpoint qmin_list (x : Q) (l : list Q) : Q :=
  match l with
  | [] => x
  | y :: l' => Qmin x (qmin_list y l')
  end.

Fixpoint qmax_list (x : Q) (l : list Q) : Q :=
  match l with
  | [] => x
  | y :: l' => Qmax x (qmax_list y l')
  end.

Definition coord_x (c : Coord) : Q := fst (fst c).
Definition coord_y (c : Coord) : Q := snd (fst c).
Definition coord_z (c : Coord) : option Q := snd c.

(** [shape.bounds]: (minx, miny, maxx, maxy), or the empty tuple. *)
Definition bounds (g : Geometry) : option (Q * Q * Q * Q) :=
  match coords g with
  | [] => None
  | c :: cs =>
      Some (qmin_list (coord_x c) (map coord_x cs),
            qmin_list (coord_y c) (map coord_y cs),
            qmax_list (coord_x c) (map coord_x cs),
            qmax_list (coord_y c) (map coord_y cs))
  end.

(** [shapely.ops.transform(func, geom)] for a [func] that returns a pair:
    [func] is applied to each coordinate (with its z when there is one) and
    the new geometry is built from the pairs it returns, so it has no z. *)
Definition CoordFn : Type := Q -> Q -> option Q -> Q * Q.

Definition apply_coord (f : CoordFn) (c : Coord) : Coord :=
  let '(x, y, z) := c in
  let '(x', y') := f x y z in
  (x', y', None).

Fixpoint transform (f : CoordFn) (g : Geometry) : Geometry :=
  match g with
  | Point cs => Point (map (apply_coord f) cs)
  | LineString cs => LineString (map (apply_coord f) cs)
  | Polygon rings => Polygon (map (map (apply_coord f)) rings)
  | MultiPoint cs => MultiPoint (map (apply_coord f) cs)
  | MultiLineString lines => MultiLineString (map (map (apply_coord f)) lines)
  | MultiPolygon polys => MultiPolygon (map (map (map (apply_coord f))) polys)
  | GeometryCollection geoms => GeometryCollection (map (transform f) geoms)
  end.

(** ** Box *)

Record Box (T : Type) : Type := mkBox { ymin : T; xmin : T; ymax : T; xmax : T }.
Arguments mkBox {T} ymin xmin ymax xmax.
Arguments ymin {T} b.
Arguments xmin {T} b.
Arguments ymax {T} b.
Arguments xmax {T} b.

Definition get_height (b : Box Z) : Z := ymax b - ymin b.
Definition get_width (b : Box Z) : Z := xmax b - xmin b.

Definition box_to_float (b : Box Z) : Box Q :=
  mkBox (inject_Z (ymin b)) (inject_Z (xmin b))
        (inject_Z (ymax b)) (inject_Z (xmax b)).

(** Modelled from the spec: [Box.to_shapely] of rastervision.core is not in
    the sources at hand; the spec gives a Box a conversion to a polygon.  The
    rectangle is the one [shapely.geometry.box(xmin, ymin, xmax, ymax)]
    builds: a closed counter-clockwise ring starting at (xmax, ymin). *)
Definition to_shapely (b : Box Q) : Geometry :=
  Polygon [[ (xmax b, ymin b, None); (xmax b, ymax b, None);
             (xmin b, ymax b, None); (xmin b, ymin b, None);
             (xmax b, ymin b, None) ]].

(** Modelled from the spec: [Box.from_shapely] is not in the sources at hand;
    the spec gives a Box a conversion from a polygon: the box of the shape's
    bounds.  An empty shape has no bounds and indexing them fails. *)
Definition from_shapely (g : Geometry) : Result (Box Q) :=
  match bounds g with
  | Some (minx, miny, maxx, maxy) => Ok (mkBox miny minx maxy maxx)
  | None => Raise IndexError
  end.

(** Modelled from the spec: [Box.to_int] is not in the sources at hand; the
    spec fixes truncation to integer bounds as floor on the min edges and
    floor on the max edges. *)
Definition to_int (b : Box Q) : Box Z :=
  mkBox (Qfloor (ymin b)) (Qfloor (xmin b)) (Qfloor (ymax b)) (Qfloor (xmax b)).

(** ** numpy arrays *)

Inductive DType : Type := uint8 | float64.

Record ndarray : Type := mk_ndarray {
  dtype : DType;
  shape : nat * nat;
  data : list (list Z)
}.

(** Storing an integer into an array of the given element type. *)
Definition cast (d : DType) (v : Z) : Z :=
  match d with
  | uint8 => v mod 256
  | float64 => v
  end.

Definition tabulate {A : Type} (n : nat) (f : nat -> A) : list A :=
  map f (seq 0 n).

(** [a[r, c]] for an index inside the array. *)
Definition getitem (a : ndarray) (r c : nat) : Z :=
  nth c (nth r (data a) []) 0.

(** [np.full(shape, fill_value, dtype=d)]. *)
Definition np_full (sh : nat * nat) (v : Z) (d : DType) : ndarray :=
  mk_ndarray d sh (repeat (repeat (cast d v) (snd sh)) (fst sh)).

(** [np.zeros(shape)]: no dtype is given, so numpy's default, float64. *)
Definition np_zeros (sh : nat * nat) : ndarray := np_full sh 0 float64.

(** [a[:, :] = v], in place: dtype and shape stay. *)
Definition fill_all (a : ndarray) (v : Z) : ndarray :=
  mk_ndarray (dtype a) (shape a)
             (repeat (repeat (cast (dtype a) v) (snd (shape a))) (fst (shape a))).

(** A slice bound [i] on an axis of length [n], as numpy normalises it:
    a negative bound counts from the end, and the result is clipped to
    the axis. *)
Definition slice_bound (i : Z) (n : nat) : Z :=
  if i <? 0 then Z.max (i + Z.of_nat n) 0 else Z.min i (Z.of_nat n).

Definition in_slice (lo hi : Z) (n : nat) (i : nat) : bool :=
  (slice_bound lo n <=? Z.of_nat i) && (Z.of_nat i <? slice_bound hi n).

(** [dst[y0:y1, x0:x1] = src[y0:y1, x0:x1]] for two arrays of one shape:
    the same cells are read and written. *)
Definition copy_slice (dst src : ndarray) (y0 y1 x0 x1 : Z) : ndarray :=
  let (h, w) := shape dst in
  mk_ndarray (dtype dst) (shape dst)
    (tabulate h (fun r =>
       tabulate w (fun c =>
         if in_slice y0 y1 h r && in_slice x0 x1 w c
         then cast (dtype dst) (getitem src r c)
         else getitem dst r c))).

(** A shape handed to numpy: negative dimensions are refused. *)
Definition check_shape (h w : Z) : Result (nat * nat) :=
  if (h <? 0) || (w <? 0) then Raise ValueError
  else Ok (Z.to_nat h, Z.to_nat w).

(** Arrays with a channel axis, as [_get_chip] returns them. *)
Record ndarray3 : Type := mk_ndarray3 {
  dtype3 : DType;
  shape3 : nat * nat * nat;
  data3 : list (list (list Z))
}.

(** [np.expand_dims(chip, 2)]. *)
Definition expand_dims2 (a : ndarray) : ndarray3 :=
  mk_ndarray3 (dtype a) (fst (shape a), snd (shape a), 1%nat)
              (map (map (fun v => [v])) (data a)).

(** [a[r, c, k]] for an index inside the array. *)
Definition getitem3 (a : ndarray3) (r c k : nat) : Z :=
  nth k (nth c (nth r (data3 a) []) []) 0.

(** ** Boxes, footprints and array shapes *)

(** The Box invariant on a window: its height and width are not
    negative. *)
Definition well_formed (window : Box Z) : Prop :=
  ymin window <= ymax window /\ xmin window <= xmax window.

Definition box_inside (a b : Box Q) : Prop :=
  (xmin b <= xmin a)%Q /\ (xmax a <= xmax b)%Q /\
  (ymin b <= ymin a)%Q /\ (ymax a <= ymax b)%Q.

(** Every coordinate of [g] lies in the box [b]. *)
Definition withinb (b : Box Q) (g : Geometry) : bool :=
  forallb (fun c => Qle_bool (xmin b) (coord_x c)
                    && Qle_bool (coord_x c) (xmax b)
                    && Qle_bool (ymin b) (coord_y c)
                    && Qle_bool (coord_y c) (ymax b))
          (coords g).

(** The coordinate function of [force_2d]. *)
Definition drop_z : CoordFn := fun x y _ => (x, y).

(** [g] with every z dropped. *)
Definition force_2d (g : Geometry) : Geometry :=
  transform (fun x y _ => (x, y)) g.

(** Two labelled shapes that differ at most in z coordinates. *)
Definition same_footprint (a b : Geometry * Z) : Prop :=
  force_2d (fst a) = force_2d (fst b) /\ snd a = snd b.

(** The values an unsigned 8-bit cell can hold. *)
Definition uint8_range (v : Z) : Prop := 0 <= v <= 255.

(** The rows of an array agree with its shape. *)
Definition well_shaped (a : ndarray) : Prop :=
  length (data a) = fst (shape a) /\
  Forall (fun row => length row = snd (shape a)) (data a).

(** ** The window rasterizer *)

Record RasterizerOptions : Type := mkOptions {
  line_buffer : Q;
  background_class_id : Z
}.

(** [to_window_frame(x, y, z=None)], the closure over [window]. *)
Definition to_window_frame (window : Box Z) : CoordFn :=
  fun x y _ => ((x - inject_Z (xmin window))%Q, (y - inject_Z (ymin window))%Q).

Section Rasterizer.

(** [a.intersection(b)] and [a.buffer(d)] of shapely. *)
Variable intersection : Geometry -> Geometry -> Geometry.
Variable buffer : Geometry -> Q -> Geometry.

(** [rasterize(shapes, out_shape=, fill=, dtype=np.uint8)] of rasterio: the
    array, or [None] when rasterio refuses its arguments, which it does by
    raising a ValueError (a side of zero in [out_shape], a class id or fill
    that the dtype cannot hold, no valid shape in the list). *)
Variable rasterize : list (Geometry * Z) -> nat * nat -> Z -> option ndarray.

(** [shapely.strtree.STRtree]: built from the shapes, each carrying its
    [class_id] attribute, and queried with a geometry. *)
Variable STRtree : Type.
Variable STRtree_build : list (Geometry * Z) -> STRtree.
Variable query : STRtree -> Geometry -> list (Geometry * Z).

(** Lines 24 to 30: query, clip to the window, drop the empty results,
    buffer the results whose class is exactly LineString. *)
Definition cropped_shapes (str_tree : STRtree) (line_buffer : Q)
           (window : Box Z) : list (Geometry * Z) :=
  let w := to_shapely (box_to_float window) in
  let shapes := query str_tree w in
  let shapes := map (fun sc => (intersection (fst sc) w, snd sc)) shapes in
  let shapes := filter (fun sc => negb (is_empty (fst sc))) shapes in
  map (fun sc => if is_LineString (fst sc)
                 then (buffer (fst sc) line_buffer, snd sc)
                 else sc) shapes.

(** Lines 35 and 36: into the window's frame of reference. *)
Definition window_shapes (str_tree : STRtree) (line_buffer : Q)
           (window : Box Z) : list (Geometry * Z) :=
  map (fun sc => (transform (to_window_frame window) (fst sc), snd sc))
      (cropped_shapes str_tree line_buffer window).

(** Lines 42 to 50: the burned grid, or the ValueError of rasterio. *)
Definition burn_in (shapes : list (Geometry * Z)) (out_shape : nat * nat)
           (background_class_id : Z) : Result ndarray :=
  match shapes with
  | _ :: _ =>
      match rasterize shapes out_shape background_class_id with
      | Some raster => Ok raster
      | None => Raise ValueError
      end
  | [] => Ok (np_full out_shape background_class_id uint8)
  end.

(** Lines 54 to 63: the part of the window outside the extent is zero. *)
Definition mask_extent (raster : ndarray) (out_shape : nat * nat)
           (window : Box Z) (extent : Box Q) : Result ndarray :=
  let valid_window :=
    intersection (to_shapely (box_to_float window)) (to_shapely extent) in
  if is_empty valid_window then Ok (fill_all raster 0)
  else
    let vw := transform (to_window_frame window) valid_window in
    b <- from_shapely vw ;;
    let vw := to_int b in
    let new_raster := np_zeros out_shape in
    Ok (copy_slice new_raster raster (ymin vw) (ymax vw) (xmin vw) (xmax vw)).

Definition geojson_to_raster (str_tree : STRtree)
           (rasterizer_options : RasterizerOptions)
           (window : Box Z) (extent : Box Q) : Result ndarray :=
  let line_buffer := line_buffer rasterizer_options in
  let background_class_id := background_class_id rasterizer_options in
  let shapes := window_shapes str_tree line_buffer window in
  out_shape <- check_shape (get_height window) (get_width window) ;;
  raster <- burn_in shapes out_shape background_class_id ;;
  mask_extent raster out_shape window extent.

(** ** The RasterizedSource class *)

(** The fields [__init__] sets, and [str_tree], which [_activate] creates.
    [vector_source] stands for what the source yields when read: the
    (shape, class_id) pairs of
    [geojson_to_shapes(vector_source.get_geojson(), crs_transformer)].
    A missing or [None] [str_tree] attribute is [None]. *)
Record RasterizedSource : Type := mkSource {
  vector_source : list (Geometry * Z);
  rasterizer_options : RasterizerOptions;
  extent : Box Q;
  activated : bool;
  str_tree : option STRtree
}.

Definition init (vector_source : list (Geometry * Z))
           (rasterizer_options : RasterizerOptions) (extent : Box Q)
  : RasterizedSource :=
  mkSource vector_source rasterizer_options extent false None.

Definition get_extent (self : RasterizedSource) : Box Q := extent self.

Definition get_dtype (self : RasterizedSource) : DType := uint8.

Definition _activate (self : RasterizedSource) : RasterizedSource :=
  let shapes := vector_source self in
  mkSource (vector_source self) (rasterizer_options self) (extent self)
           true (Some (STRtree_build shapes)).

Definition _deactivate (self : RasterizedSource) : RasterizedSource :=
  mkSource (vector_source self) (rasterizer_options self) (extent self)
           false None.

(** [_get_chip]: the outcome of the call and the source after it.
    [self.str_tree.query] on a missing index is an AttributeError. *)
Definition _get_chip (self : RasterizedSource) (window : Box Z)
  : Result ndarray3 * RasterizedSource :=
  if negb (activated self) then (Raise ActivationError, self)
  else
    match str_tree self with
    | None => (Raise AttributeError, self)
    | Some tree =>
        (chip <- geojson_to_raster tree (rasterizer_options self) window
                                   (get_extent self) ;;
         Ok (expand_dims2 chip),
         self)
    end.

(** The calls a client can make on a source. *)
Inductive Call : Type :=
| CallActivate
| CallDeactivate
| CallGetChip (window : Box Z).

Definition step (self : RasterizedSource) (c : Call) : RasterizedSource :=
  match c with
  | CallActivate => _activate self
  | CallDeactivate => _deactivate self
  | CallGetChip window => snd (_get_chip self window)
  end.

Definition run (self : RasterizedSource) (cs : list Call) : RasterizedSource :=
  fold_left step cs self.

(** ** What the properties are stated with *)

(** The part of the window inside the extent, [valid_window] of line 54. *)
Definition valid_window (window : Box Z) (extent : Box Q) : Geometry :=
  intersection (to_shapely (box_to_float window)) (to_shapely extent).

(** What is asked of shapely's clipping here: a rectangle of positive area
    cut by a rectangle that contains it keeps its bounds. *)
Definition rectangle_law : Prop :=
  forall a b : Box Q,
    (xmin a < xmax a)%Q -> (ymin a < ymax a)%Q -> box_inside a b ->
    exists x0 y0 x1 y1,
      bounds (intersection (to_shapely a) (to_shapely b))
      = Some (x0, y0, x1, y1) /\
      (x0 == xmin a)%Q /\ (y0 == ymin a)%Q /\
      (x1 == xmax a)%Q /\ (y1 == ymax a)%Q.

(** What is asked of rasterio: an array it returns has the shape it was
    asked for. *)
Definition rasterize_shape_law : Prop :=
  forall shapes out_shape fill raster,
    rasterize shapes out_shape fill = Some raster ->
    shape raster = out_shape.

(** What is asked of the geometry engine and of the index: they work on
    the x and y of their input. *)
Definition footprint_laws : Prop :=
  (forall s s' w, force_2d s = force_2d s' ->
                  force_2d (intersection s w) = force_2d (intersection s' w)) /\
  (forall s s' d, force_2d s = force_2d s' ->
                  force_2d (buffer s d) = force_2d (buffer s' d)) /\
  (forall shapes shapes' w,
      Forall2 same_footprint shapes shapes' ->
      Forall2 same_footprint (query (STRtree_build shapes) w)
              (query (STRtree_build shapes') w)).

(** What is asked of rasterio when it is given [dtype=np.uint8]: every
    cell of an array it returns is an unsigned 8-bit value. *)
Definition rasterize_uint8_law : Prop :=
  forall shapes out_shape fill raster,
    rasterize shapes out_shape fill = Some raster ->
    Forall (Forall uint8_range) (data raster).

(** The flag and the index go together. *)
Definition index_invariant (self : RasterizedSource) : Prop :=
  (activated self = true /\
   str_tree self = Some (STRtree_build (vector_source self)))
  \/ (activated self = false /\ str_tree self = None).

End Rasterizer.

(** ** A reference geometry kit

    One exact instance of the parameters of [Section Rasterizer], small
    enough to run: clipping against a rectangle (points, polylines, convex
    polygon rings), square buffers of polylines, an index that scans its
    shapes in build order, and a painter that burns the pixels whose centre
    lies in a polygon.  It works on x and y only. *)

Module Ref.

Local Open Scope Q_scope.

Definition Pt : Type := (Q * Q)%type.

Definition xy (c : Coord) : Pt := (coord_x c, coord_y c).
Definition coord2 (p : Pt) : Coord := (Qred (fst p), Qred (snd p), None).

Definition Qlt_bool (a b : Q) : bool := negb (Qle_bool b a).

(** A rectangle as (minx, miny, maxx, maxy). *)
Definition Rect : Type := (Q * Q * Q * Q)%type.

Definition inside (r : Rect) (p : Pt) : bool :=
  let '(x0, y0, x1, y1) := r in
  Qle_bool x0 (fst p) && Qle_bool (fst p) x1 &&
  Qle_bool y0 (snd p) && Qle_bool (snd p) y1.

(** One step of the parametric segment clip: the edge with direction
    coefficient [p] and offset [q] narrows the interval (t0, t1). *)
Definition clip_param (p q : Q) (t : option (Q * Q)) : option (Q * Q) :=
  match t with
  | None => None
  | Some (t0, t1) =>
      if Qeq_bool p 0 then (if Qlt_bool q 0 then None else Some (t0, t1))
      else
        let r := q / p in
        if Qlt_bool p 0
        then (if Qlt_bool t1 r then None else Some (Qmax t0 r, t1))
        else (if Qlt_bool r t0 then None else Some (t0, Qmin t1 r))
  end.

(** The part of the segment from [a] to [b] inside [r], when it has
    positive length. *)
Definition clip_segment (r : Rect) (a b : Pt) : option (Pt * Pt) :=
  let '(x0, y0, x1, y1) := r in
  let dx := fst b - fst a in
  let dy := snd b - snd a in
  let t := Some (0, 1) in
  let t := clip_param (- dx) (fst a - x0) t in
  let t := clip_param dx (x1 - fst a) t in
  let t := clip_param (- dy) (snd a - y0) t in
  let t := clip_param dy (y1 - snd a) t in
  match t with
  | Some (t0, t1) =>
      if Qlt_bool t0 t1
      then Some ((fst a + t0 * dx, snd a + t0 * dy),
                 (fst a + t1 * dx, snd a + t1 * dy))
      else None
  | None => None
  end.

Definition pt_eqb (a b : Pt) : bool :=
  Qeq_bool (fst a) (fst b) && Qeq_bool (snd a) (snd b).

(** Clip a polyline segment by segment; [cur] is the part being built,
    last point first.  A clipped segment that starts where the part ends
    continues it, any other one starts a new part. *)
Fixpoint clip_line_from (r : Rect) (a : Pt) (rest : list Pt) (cur : list Pt)
  : list (list Pt) :=
  match rest with
  | [] => match cur with [] => [] | _ => [rev cur] end
  | b :: rest' =>
      match clip_segment r a b with
      | None =>
          match cur with
          | [] => clip_line_from r b rest' []
          | _ => rev cur :: clip_line_from r b rest' []
          end
      | Some (p, q) =>
          match cur with
          | [] => clip_line_from r b rest' [q; p]
          | e :: _ =>
              if pt_eqb e p then clip_line_from r b rest' (q :: cur)
              else rev cur :: clip_line_from r b rest' [q; p]
          end
      end
  end.

Definition clip_line (r : Rect) (l : list Pt) : list (list Pt) :=
  match l with
  | [] => []
  | a :: rest => clip_line_from r a rest []
  end.

(** Ring clipping against one half-plane: [keep] tells the kept side,
    [cross a b] is where the edge from [a] to [b] meets the border. *)
Fixpoint clip_edge_from (keep : Pt -> bool) (cross : Pt -> Pt -> Pt)
         (prev : Pt) (vs : list Pt) : list Pt :=
  match vs with
  | [] => []
  | cur :: vs' =>
      (if keep cur
       then (if keep prev then [cur] else [cross prev cur; cur])
       else (if keep prev then [cross prev cur] else []))
      ++ clip_edge_from keep cross cur vs'
  end.

Definition clip_edge (keep : Pt -> bool) (cross : Pt -> Pt -> Pt)
           (vs : list Pt) : list Pt :=
  match vs with
  | [] => []
  | v :: _ => clip_edge_from keep cross (last vs v) vs
  end.

Definition cross_x (x : Q) (a b : Pt) : Pt :=
  (x, snd a + (x - fst a) / (fst b - fst a) * (snd b - snd a)).
Definition cross_y (y : Q) (a b : Pt) : Pt :=
  (fst a + (y - snd a) / (snd b - snd a) * (fst b - fst a), y).

(** A closed ring (first point repeated at the end) clipped to [r]. *)
Definition clip_ring (r : Rect) (ring : list Pt) : list Pt :=
  let '(x0, y0, x1, y1) := r in
  let vs := removelast ring in
  let vs := clip_edge (fun p => Qle_bool x0 (fst p)) (cross_x x0) vs in
  let vs := clip_edge (fun p => Qle_bool (fst p) x1) (cross_x x1) vs in
  let vs := clip_edge (fun p => Qle_bool y0 (snd p)) (cross_y y0) vs in
  let vs := clip_edge (fun p => Qle_bool (snd p) y1) (cross_y y1) vs in
  match vs with
  | [] => []
  | v :: _ => vs ++ [v]
  end.

Definition nonempty {A : Type} (l : list A) : bool :=
  match l with
  | [] => false
  | _ :: _ => true
  end.

Definition clip_polygon (r : Rect) (rings : list (list Coord))
  : list (list Coord) :=
  match rings with
  | [] => []
  | shell :: holes =>
      match clip_ring r (map xy shell) with
      | [] => []
      | s =>
          map coord2 s
          :: filter nonempty
               (map (fun h => map coord2 (clip_ring r (map xy h))) holes)
      end
  end.

Definition lines_geometry (parts : list (list Pt)) : Geometry :=
  match parts with
  | [] => GeometryCollection []
  | [l] => LineString (map coord2 l)
  | _ => MultiLineString (map (map coord2) parts)
  end.

Fixpoint clip (r : Rect) (g : Geometry) : Geometry :=
  match g with
  | Point cs => Point (map coord2 (filter (inside r) (map xy cs)))
  | LineString cs => lines_geometry (clip_line r (map xy cs))
  | Polygon rings => Polygon (clip_polygon r rings)
  | MultiPoint cs => MultiPoint (map coord2 (filter (inside r) (map xy cs)))
  | MultiLineString lines =>
      lines_geometry (flat_map (fun l => clip_line r (map xy l)) lines)
  | MultiPolygon polys =>
      MultiPolygon (filter nonempty (map (clip_polygon r) polys))
  | GeometryCollection geoms =>
      GeometryCollection
        (filter (fun g => negb (is_empty g)) (map (clip r) geoms))
  end.

(** [a.intersection(b)] for a rectangle [b]. *)
Definition intersection (a b : Geometry) : Geometry :=
  match bounds b with
  | None => GeometryCollection []
  | Some r => clip r a
  end.

Definition rect_ring (x0 y0 x1 y1 : Q) : list Coord :=
  map coord2 [(x1, y0); (x1, y1); (x0, y1); (x0, y0); (x1, y0)].

Fixpoint segments (l : list Pt) : list (Pt * Pt) :=
  match l with
  | a :: (b :: _) as t => (a, b) :: segments t
  | _ => []
  end.

Definition segment_box (d : Q) (s : Pt * Pt) : list Coord :=
  let (a, b) := s in
  rect_ring (Qmin (fst a) (fst b) - d) (Qmin (snd a) (snd b) - d)
            (Qmax (fst a) (fst b) + d) (Qmax (snd a) (snd b) + d).

(** [g.buffer(d)] with square caps and mitred joins: each segment of a
    line grows into its bounding rectangle widened by [d]; a line buffered
    by nothing is the empty polygon. *)
Definition buffer (g : Geometry) (d : Q) : Geometry :=
  match g with
  | LineString cs =>
      if Qle_bool d 0 then Polygon []
      else
        match segments (map xy cs) with
        | [] => Polygon []
        | [s] => Polygon [segment_box d s]
        | segs => MultiPolygon (map (fun s => [segment_box d s]) segs)
        end
  | _ =>
      match bounds g with
      | None => Polygon []
      | Some (x0, y0, x1, y1) =>
          Polygon [rect_ring (x0 - d) (y0 - d) (x1 + d) (y1 + d)]
      end
  end.

(** Even-odd rule: the edge from [a] to [b] crosses the ray going right
    from [p]. *)
Definition edge_crosses (p a b : Pt) : bool :=
  negb (Bool.eqb (Qlt_bool (snd p) (snd a)) (Qlt_bool (snd p) (snd b)))
  && Qlt_bool (fst p)
       (fst a + (snd p - snd a) / (snd b - snd a) * (fst b - fst a)).

Definition ring_crossings (p : Pt) (ring : list Coord) : nat :=
  length (filter (fun s => edge_crosses p (fst s) (snd s))
                 (segments (map xy ring))).

Definition in_polygon (p : Pt) (rings : list (list Coord)) : bool :=
  Nat.odd (list_sum (map (ring_crossings p) rings)).

(** The pixels a shape burns: those whose centre it covers.  Only areas
    burn in this kit. *)
Fixpoint covers (g : Geometry) (p : Pt) : bool :=
  match g with
  | Polygon rings => in_polygon p rings
  | MultiPolygon polys => existsb (in_polygon p) polys
  | GeometryCollection geoms => existsb (fun g' => covers g' p) geoms
  | _ => false
  end.

Definition centre (r c : nat) : Pt :=
  (inject_Z (Z.of_nat c) + (1 # 2), inject_Z (Z.of_nat r) + (1 # 2)).

(** Later shapes paint over earlier ones. *)
Definition paint (shapes : list (Geometry * Z)) (fill : Z) (p : Pt) : Z :=
  fold_left (fun v sc => if covers (fst sc) p then snd sc else v) shapes fill.

Definition fits_uint8 (v : Z) : bool := (0 <=? v) && (v <=? 255).

(** rasterio refuses, with a ValueError, an [out_shape] with a side of
    zero, a fill or a class id that an unsigned 8-bit cell cannot hold, and
    a list in which every shape is empty. *)
Definition refused (shapes : list (Geometry * Z)) (out_shape : nat * nat)
           (fill : Z) : bool :=
  Nat.eqb (fst out_shape) 0 || Nat.eqb (snd out_shape) 0
  || negb (fits_uint8 fill)
  || negb (forallb (fun sc => fits_uint8 (snd sc)) shapes)
  || negb (existsb (fun sc => negb (is_empty (fst sc))) shapes).

Definition rasterize (shapes : list (Geometry * Z)) (out_shape : nat * nat)
           (fill : Z) : option ndarray :=
  if refused shapes out_shape fill then None
  else
    Some (mk_ndarray uint8 out_shape
            (tabulate (fst out_shape) (fun r =>
               tabulate (snd out_shape) (fun c =>
                 cast uint8 (paint shapes fill (centre r c)))))).

(** The index: the shapes in build order; a query keeps those whose
    envelope meets the envelope of the query geometry. *)
Definition STRtree : Type := list (Geometry * Z).

Definition STRtree_build (shapes : list (Geometry * Z)) : STRtree := shapes.

Definition overlap (a b : Rect) : bool :=
  let '(ax0, ay0, ax1, ay1) := a in
  let '(bx0, by0, bx1, by1) := b in
  Qle_bool ax0 bx1 && Qle_bool bx0 ax1 && Qle_bool ay0 by1 && Qle_bool by0 ay1.

Definition query (t : STRtree) (g : Geometry) : list (Geometry * Z) :=
  match bounds g with
  | None => []
  | Some r =>
      filter (fun sc => match bounds (fst sc) with
                        | Some r' => overlap r' r
                        | None => false
                        end) t
  end.

Definition geojson_to_raster :=
  geojson_to_raster intersection buffer rasterize STRtree query.

Definition window_shapes :=
  window_shapes intersection buffer STRtree query.

Definition cropped_shapes :=
  cropped_shapes intersection buffer STRtree query.

Definition Source : Type := RasterizedSource STRtree.

Definition _get_chip :=
  _get_chip intersection buffer rasterize STRtree query.

End Ref.


(** ** Small scenes *)

Module Scenes.

(** The square [x0, x1] x [y0, y1]. *)
Definition square (x0 y0 x1 y1 : Q) : Geometry :=
  to_shapely (mkBox y0 x0 y1 x1).

(** A class-5 square in an 8 by 8 extent, seen through a 4 by 4 window. *)
Definition extent8 : Box Q := mkBox 0%Q 0%Q 8%Q 8%Q.
Definition shapes_a : list (Geometry * Z) := [(square 1 1 3 3, 5)].
Definition options_a : RasterizerOptions := mkOptions 1 9.
Definition options_0 : RasterizerOptions := mkOptions 0 9.
Definition window_a : Box Z := mkBox 0 0 4 4.
Definition source_a : Ref.Source :=
  init Ref.STRtree shapes_a options_a extent8.
Definition active_a : Ref.Source :=
  _activate Ref.STRtree Ref.STRtree_build source_a.

(** A window, and a shape in it, far outside the extent. *)
Definition shapes_out : list (Geometry * Z) := [(square 21 21 23 23, 5)].
Definition window_out : Box Z := mkBox 20 20 24 24.

(** An extent that ends inside a pixel: 3.5 high and 2.5 wide. *)
Definition extent_frac : Box Q := mkBox 0%Q 0%Q (7 # 2)%Q (5 # 2)%Q.
Definition shapes_full : list (Geometry * Z) := [(square 0 0 5 5, 5)].
Definition window_5 : Box Z := mkBox 0 0 5 5.

(** A line whose envelope meets the window although the line does not. *)
Definition shapes_far : list (Geometry * Z) :=
  [(LineString [(0%Q, 7%Q, None); (7%Q, 0%Q, None)], 3)].
Definition window_in : Box Z := mkBox 1 1 3 3.
Definition options_300 : RasterizerOptions := mkOptions 1 300.
Definition active_far : Ref.Source :=
  _activate Ref.STRtree Ref.STRtree_build
            (init Ref.STRtree shapes_far options_a extent8).
Definition active_300 : Ref.Source :=
  _activate Ref.STRtree Ref.STRtree_build
            (init Ref.STRtree shapes_far options_300 extent8).

(** A line that leaves the window and comes back: clipping it leaves two
    parts. *)
Definition shapes_v : list (Geometry * Z) :=
  [(LineString [(2%Q, 3%Q, None); (5%Q, (-3)%Q, None); (8%Q, 3%Q, None)], 7)].
Definition window_10 : Box Z := mkBox 0 0 10 10.

(** A window with its bounds the wrong way round, and an extent that only
    touches [window_a], along the line x = 4. *)
Definition window_neg : Box Z := mkBox 4 0 0 4.
Definition extent_touch : Box Q := mkBox 0%Q 4%Q 8%Q 8%Q.

(** A triangle: its clipped result is a polygon. *)
Definition shapes_tri : list (Geometry * Z) :=
  [(Polygon [[(1%Q, 1%Q, None); (3%Q, 1%Q, None); (1%Q, 3%Q, None);
              (1%Q, 1%Q, None)]], 2)].

(** A line inside the window. *)
Definition shapes_line : list (Geometry * Z) :=
  [(LineString [(2%Q, 3%Q, None); (5%Q, 3%Q, None)], 7)].

(** The same polygon with and without heights. *)
Definition shapes_3d : list (Geometry * Z) :=
  [(Polygon [[(1%Q, 1%Q, Some 4%Q); (3%Q, 1%Q, Some 5%Q); (3%Q, 3%Q, Some 6%Q);
              (1%Q, 3%Q, Some 7%Q); (1%Q, 1%Q, Some 4%Q)]], 5)].
Definition shapes_2d : list (Geometry * Z) :=
  [(Polygon [[(1%Q, 1%Q, None); (3%Q, 1%Q, None); (3%Q, 3%Q, None);
              (1%Q, 3%Q, None); (1%Q, 1%Q, None)]], 5)].

(** The example of the specification: a class-5 square from (10, 10) to
    (20, 20) in a 100 by 100 extent, window from (0, 0) to (30, 30). *)
Definition spec_extent : Box Q := mkBox 0%Q 0%Q 100%Q 100%Q.
Definition spec_shapes : list (Geometry * Z) := [(square 10 10 20 20, 5)].
Definition spec_window : Box Z := mkBox 0 0 30 30.

(** A line counts as a line, single or multi-part. *)
Definition is_line (g : Geometry) : bool :=
  match g with
  | LineString _ | MultiLineString _ => true
  | _ => false
  end.

End Scenes.

(** ** Geometry: induction through nested collections *)

Section GeometryInduction.

Variable P : Geometry -> Prop.
Hypothesis HPoint : forall cs, P (Point cs).
Hypothesis HLineString : forall cs, P (LineString cs).
Hypothesis HPolygon : forall rings, P (Polygon rings).
Hypothesis HMultiPoint : forall cs, P (MultiPoint cs).
Hypothesis HMultiLineString : forall lines, P (MultiLineString lines).
Hypothesis HMultiPolygon : forall polys, P (MultiPolygon polys).
Hypothesis HCollection :
  forall geoms, Forall P geoms -> P (GeometryCollection geoms).

Fixpoint Geometry_nested_ind (g : Geometry) : P g :=
  match g with
  | Point cs => HPoint cs
  | LineString cs => HLineString cs
  | Polygon rings => HPolygon rings
  | MultiPoint cs => HMultiPoint cs
  | MultiLineString lines => HMultiLineString lines
  | MultiPolygon polys => HMultiPolygon polys
  | GeometryCollection geoms =>
      HCollection geoms
        ((fix all (l : list Geometry) : Forall P l :=
            match l with
            | [] => Forall_nil P
            | g' :: l' => Forall_cons g' (Geometry_nested_ind g') (all l')
            end) geoms)
  end.

End GeometryInduction.

(** * Properties *)

(** ** Arrays *)

Lemma nth_tabulate {A : Type} (n : nat) (f : nat -> A) (i : nat) (d : A) :
  (i < n)%nat -> nth i (tabulate n f) d = f i.
Proof.
  intros Hi. unfold tabulate.
  rewrite (nth_indep _ d (f 0%nat)) by (rewrite length_map, length_seq; exact Hi).
  rewrite map_nth, seq_nth by exact Hi. reflexivity.
Qed.

Lemma length_tabulate {A : Type} (n : nat) (f : nat -> A) :
  length (tabulate n f) = n.
Proof. unfold tabulate. now rewrite length_map, length_seq. Qed.

Lemma getitem_np_full (h w : nat) (v : Z) (d : DType) (r c : nat) :
  (r < h)%nat -> (c < w)%nat -> getitem (np_full (h, w) v d) r c = cast d v.
Proof.
  intros Hr Hc. unfold getitem, np_full. cbn [data fst snd].
  rewrite nth_repeat_lt by exact Hr.
  now rewrite nth_repeat_lt.
Qed.

Lemma getitem_copy_slice (dst src : ndarray) (y0 y1 x0 x1 : Z) (r c : nat) :
  (r < fst (shape dst))%nat -> (c < snd (shape dst))%nat ->
  getitem (copy_slice dst src y0 y1 x0 x1) r c =
  if in_slice y0 y1 (fst (shape dst)) r && in_slice x0 x1 (snd (shape dst)) c
  then cast (dtype dst) (getitem src r c)
  else getitem dst r c.
Proof.
  intros Hr Hc. unfold copy_slice.
  destruct (shape dst) as [h w] eqn:Hs. cbn [fst snd] in *.
  unfold getitem at 1. cbn [data].
  rewrite (nth_tabulate h _ r) by exact Hr.
  now rewrite nth_tabulate.
Qed.

Lemma shape_copy_slice (dst src : ndarray) (y0 y1 x0 x1 : Z) :
  shape (copy_slice dst src y0 y1 x0 x1) = shape dst.
Proof. unfold copy_slice. now destruct (shape dst). Qed.

Lemma dtype_copy_slice (dst src : ndarray) (y0 y1 x0 x1 : Z) :
  dtype (copy_slice dst src y0 y1 x0 x1) = dtype dst.
Proof. unfold copy_slice. now destruct (shape dst). Qed.

(** For bounds that are not negative, a slice holds the indices between
    them: numpy's clipping to the axis changes nothing below its length. *)
Lemma in_slice_nonneg (lo hi : Z) (n i : nat) :
  0 <= lo -> 0 <= hi -> (i < n)%nat ->
  in_slice lo hi n i = (lo <=? Z.of_nat i) && (Z.of_nat i <? hi).
Proof.
  intros Hlo Hhi Hi. unfold in_slice, slice_bound.
  destruct (lo <? 0) eqn:E1; [apply Z.ltb_lt in E1; lia|].
  destruct (hi <? 0) eqn:E2; [apply Z.ltb_lt in E2; lia|].
  f_equal.
  - destruct (Z.leb_spec (Z.min lo (Z.of_nat n)) (Z.of_nat i));
      destruct (Z.leb_spec lo (Z.of_nat i)); try reflexivity; lia.
  - destruct (Z.ltb_spec (Z.of_nat i) (Z.min hi (Z.of_nat n)));
      destruct (Z.ltb_spec (Z.of_nat i) hi); try reflexivity; lia.
Qed.

Lemma well_shaped_fill_all (a : ndarray) (v : Z) : well_shaped (fill_all a v).
Proof.
  unfold well_shaped, fill_all. cbn [data shape]. split.
  - apply repeat_length.
  - apply Forall_forall. intros row Hrow. apply repeat_spec in Hrow.
    subst row. apply repeat_length.
Qed.

Lemma well_shaped_copy_slice (dst src : ndarray) (y0 y1 x0 x1 : Z) :
  well_shaped (copy_slice dst src y0 y1 x0 x1).
Proof.
  unfold well_shaped, copy_slice. destruct (shape dst) as [h w].
  cbn [data shape fst snd]. split.
  - apply length_tabulate.
  - apply Forall_forall. intros row Hrow. unfold tabulate in Hrow.
    apply in_map_iff in Hrow. destruct Hrow as (r & <- & _).
    apply length_tabulate.
Qed.

(** The only channel of an expanded array holds the grid. *)
Lemma getitem3_expand_dims2 (a : ndarray) (r c : nat) :
  well_shaped a -> (r < fst (shape a))%nat -> (c < snd (shape a))%nat ->
  getitem3 (expand_dims2 a) r c 0 = getitem a r c.
Proof.
  intros [Hlen Hrows] Hr Hc. unfold getitem3, getitem, expand_dims2.
  cbn [data3].
  assert (Hrow : length (nth r (data a) []) = snd (shape a)).
  { rewrite Forall_forall in Hrows. apply Hrows, nth_In. now rewrite Hlen. }
  change (nth r (map (map (fun v : Z => [v])) (data a)) [])
    with (nth r (map (map (fun v : Z => [v])) (data a))
              (map (fun v : Z => [v]) [])).
  rewrite (map_nth (map (fun v : Z => [v])) (data a) [] r).
  rewrite (nth_indep _ [] ((fun v : Z => [v]) 0))
    by (now rewrite length_map, Hrow).
  now rewrite (map_nth (fun v : Z => [v]) (nth r (data a) []) 0 c).
Qed.

Lemma check_shape_ok (h w : Z) :
  0 <= h -> 0 <= w -> check_shape h w = Ok (Z.to_nat h, Z.to_nat w).
Proof.
  intros Hh Hw. unfold check_shape.
  destruct (Z.ltb_spec h 0); [lia|]. destruct (Z.ltb_spec w 0); [lia|].
  reflexivity.
Qed.

Lemma check_shape_raises (h w : Z) (e : Exception) :
  check_shape h w = Raise e -> e = ValueError.
Proof.
  unfold check_shape. destruct ((h <? 0) || (w <? 0)); congruence.
Qed.

Lemma concat_map_map {A B : Type} (f : A -> B) (ll : list (list A)) :
  concat (map (map f) ll) = map f (concat ll).
Proof. now rewrite concat_map. Qed.

(** [transform] acts coordinate by coordinate. *)
Lemma coords_transform (f : CoordFn) (g : Geometry) :
  coords (transform f g) = map (apply_coord f) (coords g).
Proof.
  induction g using Geometry_nested_ind; cbn [transform coords];
    try reflexivity.
  - apply concat_map_map.
  - apply concat_map_map.
  - rewrite concat_map, !map_map.
    f_equal. apply map_ext. intros p. apply concat_map_map.
  - induction H as [|g' l Hg' _ IH]; [reflexivity|].
    cbn [map flat_map]. now rewrite map_app, Hg', IH.
Qed.

Lemma is_empty_transform (f : CoordFn) (g : Geometry) :
  is_empty (transform f g) = is_empty g.
Proof.
  unfold is_empty. rewrite coords_transform. now destruct (coords g).
Qed.

Lemma from_shapely_nonempty (g : Geometry) :
  is_empty g = false -> exists b, from_shapely g = Ok b.
Proof.
  unfold is_empty, from_shapely, bounds.
  destruct (coords g); [discriminate|]. intros _. eauto.
Qed.

Lemma from_shapely_raises (g : Geometry) (e : Exception) :
  from_shapely g = Raise e -> e = IndexError.
Proof.
  unfold from_shapely. destruct (bounds g) as [[[[? ?] ?] ?]|]; congruence.
Qed.

Lemma cast_zero (d : DType) : cast d 0 = 0.
Proof. now destruct d. Qed.

Lemma fill_all_zero (a : ndarray) :
  Forall (Forall (fun v => v = 0)) (data (fill_all a 0)).
Proof.
  unfold fill_all. cbn [data]. rewrite cast_zero.
  apply Forall_forall. intros row Hrow. apply repeat_spec in Hrow. subst row.
  apply Forall_forall. intros v Hv. now apply repeat_spec in Hv.
Qed.

(** ** Bounds *)

Lemma qmin_list_ge (lo x : Q) (l : list Q) :
  (lo <= x)%Q -> Forall (fun v => (lo <= v)%Q) l -> (lo <= qmin_list x l)%Q.
Proof.
  revert x. induction l as [|y l IH]; intros x Hx Hl; cbn; [exact Hx|].
  inversion Hl; subst. apply Q.min_glb; [exact Hx|]. now apply IH.
Qed.

Lemma qmax_list_ge (lo x : Q) (l : list Q) :
  (lo <= x)%Q -> (lo <= qmax_list x l)%Q.
Proof.
  intros Hx. destruct l as [|y l]; cbn; [exact Hx|].
  eapply Qle_trans; [exact Hx|apply Q.le_max_l].
Qed.

Lemma qmin_list_le_head (x : Q) (l : list Q) : (qmin_list x l <= x)%Q.
Proof. destruct l; cbn; [apply Qle_refl|apply Q.le_min_l]. Qed.

Lemma qmin_list_le_in (x v : Q) (l : list Q) :
  In v l -> (qmin_list x l <= v)%Q.
Proof.
  revert x. induction l as [|y l IH]; intros x Hin; [contradiction|].
  cbn. eapply Qle_trans; [apply Q.le_min_r|].
  destruct Hin as [->|Hin]; [apply qmin_list_le_head|now apply IH].
Qed.

Lemma qmax_list_le (hi x : Q) (l : list Q) :
  (x <= hi)%Q -> Forall (fun v => (v <= hi)%Q) l -> (qmax_list x l <= hi)%Q.
Proof.
  revert x. induction l as [|y l IH]; intros x Hx Hl; cbn; [exact Hx|].
  inversion Hl; subst. apply Q.max_lub; [exact Hx|]. now apply IH.
Qed.

Lemma qmax_list_ge_head (x : Q) (l : list Q) : (x <= qmax_list x l)%Q.
Proof. destruct l; cbn; [apply Qle_refl|apply Q.le_max_l]. Qed.

Lemma qmax_list_ge_in (x v : Q) (l : list Q) :
  In v l -> (v <= qmax_list x l)%Q.
Proof.
  revert x. induction l as [|y l IH]; intros x Hin; [contradiction|].
  cbn. eapply Qle_trans; [|apply Q.le_max_r].
  destruct Hin as [->|Hin]; [apply qmax_list_ge_head|now apply IH].
Qed.

(** The least element: a lower bound that is attained. *)
Lemma qmin_list_is (m x : Q) (l : list Q) :
  Forall (fun v => (m <= v)%Q) (x :: l) ->
  Exists (fun v => (v == m)%Q) (x :: l) ->
  (qmin_list x l == m)%Q.
Proof.
  intros Hall Hex. inversion Hall; subst. apply Qle_antisym.
  - apply Exists_exists in Hex. destruct Hex as (v & [<-|Hin] & Hv).
    + rewrite <- Hv. apply qmin_list_le_head.
    + rewrite <- Hv. now apply qmin_list_le_in.
  - now apply qmin_list_ge.
Qed.

Lemma qmax_list_is (m x : Q) (l : list Q) :
  Forall (fun v => (v <= m)%Q) (x :: l) ->
  Exists (fun v => (v == m)%Q) (x :: l) ->
  (qmax_list x l == m)%Q.
Proof.
  intros Hall Hex. inversion Hall; subst. apply Qle_antisym.
  - now apply qmax_list_le.
  - apply Exists_exists in Hex. destruct Hex as (v & [<-|Hin] & Hv).
    + rewrite <- Hv. apply qmax_list_ge_head.
    + rewrite <- Hv. now apply qmax_list_ge_in.
Qed.

(** Moving every element by [d] moves the least and the greatest by [d]. *)
Lemma qmin_list_shift (d x : Q) (l : list Q) :
  (qmin_list (x - d) (map (fun v => v - d) l) == qmin_list x l - d)%Q.
Proof.
  apply qmin_list_is.
  - change ((x - d)%Q :: map (fun v => (v - d)%Q) l)
      with (map (fun v => (v - d)%Q) (x :: l)).
    apply Forall_map, Forall_forall. intros v Hv.
    assert (qmin_list x l <= v)%Q.
    { destruct Hv as [<-|Hv];
        [apply qmin_list_le_head|now apply qmin_list_le_in]. }
    lra.
  - change ((x - d)%Q :: map (fun v => (v - d)%Q) l)
      with (map (fun v => (v - d)%Q) (x :: l)).
    apply Exists_map.
    assert (H : Exists (fun v => (v == qmin_list x l)%Q) (x :: l)).
    { clear d. revert x. induction l as [|y l IH]; intros x; cbn.
      - left. reflexivity.
      - destruct (Q.min_spec x (qmin_list y l)) as [[_ He]|[_ He]].
        + left. now rewrite He.
        + right. specialize (IH y).
          eapply Exists_impl; [|exact IH]. cbn. intros a Ha.
          now rewrite He. }
    eapply Exists_impl; [|exact H]. cbn. intros a Ha. rewrite Ha. reflexivity.
Qed.

Lemma qmax_list_shift (d x : Q) (l : list Q) :
  (qmax_list (x - d) (map (fun v => v - d) l) == qmax_list x l - d)%Q.
Proof.
  apply qmax_list_is.
  - change ((x - d)%Q :: map (fun v => (v - d)%Q) l)
      with (map (fun v => (v - d)%Q) (x :: l)).
    apply Forall_map, Forall_forall. intros v Hv.
    assert (v <= qmax_list x l)%Q.
    { destruct Hv as [<-|Hv];
        [apply qmax_list_ge_head|now apply qmax_list_ge_in]. }
    lra.
  - change ((x - d)%Q :: map (fun v => (v - d)%Q) l)
      with (map (fun v => (v - d)%Q) (x :: l)).
    apply Exists_map.
    assert (H : Exists (fun v => (v == qmax_list x l)%Q) (x :: l)).
    { clear d. revert x. induction l as [|y l IH]; intros x; cbn.
      - left. reflexivity.
      - destruct (Q.max_spec x (qmax_list y l)) as [[_ He]|[_ He]].
        + right. specialize (IH y).
          eapply Exists_impl; [|exact IH]. cbn. intros a Ha.
          now rewrite He.
        + left. now rewrite He. }
    eapply Exists_impl; [|exact H]. cbn. intros a Ha. rewrite Ha. reflexivity.
Qed.

(** The bounds of a shape moved into the frame of a window. *)
Lemma bounds_to_window_frame (window : Box Z) (g : Geometry)
      (x0 y0 x1 y1 : Q) :
  bounds g = Some (x0, y0, x1, y1) ->
  exists b,
    from_shapely (transform (to_window_frame window) g) = Ok b /\
    (xmin b == x0 - inject_Z (xmin window))%Q /\
    (ymin b == y0 - inject_Z (ymin window))%Q /\
    (xmax b == x1 - inject_Z (xmin window))%Q /\
    (ymax b == y1 - inject_Z (ymin window))%Q.
Proof.
  unfold from_shapely, bounds. rewrite coords_transform.
  destruct (coords g) as [|[[x y] z] cs]; [discriminate|].
  intros H. injection H as <- <- <- <-.
  cbn [map apply_coord to_window_frame]. eexists. split; [reflexivity|].
  cbn [xmin ymin xmax ymax]. unfold coord_x, coord_y. cbn [fst snd].
  rewrite !map_map.
  rewrite (map_ext (fun c => fst (fst (apply_coord (to_window_frame window) c)))
                   (fun c => (fst (fst c) - inject_Z (xmin window))%Q))
    by (now intros [[? ?] ?]).
  rewrite (map_ext (fun c => snd (fst (apply_coord (to_window_frame window) c)))
                   (fun c => (snd (fst c) - inject_Z (ymin window))%Q))
    by (now intros [[? ?] ?]).
  rewrite <- !(map_map (fun c : Coord => fst (fst c))
                       (fun v => (v - inject_Z (xmin window))%Q)).
  rewrite <- !(map_map (fun c : Coord => snd (fst c))
                       (fun v => (v - inject_Z (ymin window))%Q)).
  repeat split;
    first [apply qmin_list_shift | apply qmax_list_shift].
Qed.

(** ** The window rasterizer, for any geometry engine *)

Section RasterizerProperties.

Variable intersection : Geometry -> Geometry -> Geometry.
Variable buffer : Geometry -> Q -> Geometry.
Variable rasterize : list (Geometry * Z) -> nat * nat -> Z -> option ndarray.
Variable STRtree : Type.
Variable STRtree_build : list (Geometry * Z) -> STRtree.
Variable query : STRtree -> Geometry -> list (Geometry * Z).

Local Abbreviation mask_extent' := (mask_extent intersection).
Local Abbreviation window_shapes' := (window_shapes intersection buffer STRtree query).
Local Abbreviation cropped_shapes' := (cropped_shapes intersection buffer STRtree query).
Local Abbreviation burn_in' := (burn_in rasterize).
Local Abbreviation geojson_to_raster' :=
  (geojson_to_raster intersection buffer rasterize STRtree query).
Local Abbreviation get_chip' :=
  (_get_chip intersection buffer rasterize STRtree query).
Local Abbreviation activate' := (_activate STRtree STRtree_build).
Local Abbreviation deactivate' := (_deactivate STRtree).
Local Abbreviation Source := (RasterizedSource STRtree).
Local Abbreviation valid_window' := (valid_window intersection).
Local Abbreviation rectangle_law' := (rectangle_law intersection).
Local Abbreviation rasterize_shape_law' := (rasterize_shape_law rasterize).
Local Abbreviation footprint_laws' :=
  (footprint_laws intersection buffer STRtree STRtree_build query).
Local Abbreviation index_invariant' :=
  (index_invariant STRtree STRtree_build).
Local Abbreviation rasterize_uint8_law' := (rasterize_uint8_law rasterize).
Local Abbreviation run' :=
  (run intersection buffer rasterize STRtree STRtree_build query).

Lemma well_formed_shape (window : Box Z) :
  well_formed window ->
  check_shape (get_height window) (get_width window) =
  Ok (Z.to_nat (get_height window), Z.to_nat (get_width window)).
Proof.
  intros [Hy Hx]. apply check_shape_ok; unfold get_height, get_width; lia.
Qed.

Lemma mask_extent_empty (raster : ndarray) (sh : nat * nat)
      (window : Box Z) (extent : Box Q) :
  is_empty (valid_window' window extent) = true ->
  mask_extent' raster sh window extent = Ok (fill_all raster 0).
Proof.
  intros He. unfold mask_extent. fold (valid_window' window extent).
  now rewrite He.
Qed.

Lemma mask_extent_nonempty (raster : ndarray) (sh : nat * nat)
      (window : Box Z) (extent : Box Q) :
  is_empty (valid_window' window extent) = false ->
  exists b,
    from_shapely (transform (to_window_frame window)
                            (valid_window' window extent)) = Ok b /\
    mask_extent' raster sh window extent =
    Ok (copy_slice (np_zeros sh) raster
                   (ymin (to_int b)) (ymax (to_int b))
                   (xmin (to_int b)) (xmax (to_int b))).
Proof.
  intros He. unfold mask_extent. fold (valid_window' window extent).
  rewrite He.
  destruct (from_shapely_nonempty
              (transform (to_window_frame window) (valid_window' window extent)))
    as [b Hb].
  { now rewrite is_empty_transform. }
  exists b. split; [exact Hb|]. now rewrite Hb.
Qed.

(** The masking step always hands back an array. *)
Lemma mask_extent_total (raster : ndarray) (sh : nat * nat)
      (window : Box Z) (extent : Box Q) :
  exists grid, mask_extent' raster sh window extent = Ok grid.
Proof.
  destruct (is_empty (valid_window' window extent)) eqn:He.
  - rewrite mask_extent_empty by exact He. eauto.
  - destruct (mask_extent_nonempty raster sh window extent He) as (b & _ & H).
    rewrite H. eauto.
Qed.

Lemma geojson_to_raster_unfold (tree : STRtree) (opts : RasterizerOptions)
      (window : Box Z) (extent : Box Q) :
  well_formed window ->
  let sh := (Z.to_nat (get_height window), Z.to_nat (get_width window)) in
  geojson_to_raster' tree opts window extent =
  (raster <- burn_in' (window_shapes' tree (line_buffer opts) window) sh
                      (background_class_id opts) ;;
   mask_extent' raster sh window extent).
Proof.
  intros Hwf sh. unfold geojson_to_raster.
  rewrite well_formed_shape by exact Hwf. reflexivity.
Qed.

(** What a returned grid tells: numpy took the shape, rasterio or [np.full]
    gave a raster, and the grid is that raster masked. *)
Lemma geojson_to_raster_ok (tree : STRtree) (opts : RasterizerOptions)
      (window : Box Z) (extent : Box Q) (grid : ndarray) :
  geojson_to_raster' tree opts window extent = Ok grid ->
  let sh := (Z.to_nat (get_height window), Z.to_nat (get_width window)) in
  well_formed window /\
  exists raster,
    burn_in' (window_shapes' tree (line_buffer opts) window) sh
             (background_class_id opts) = Ok raster /\
    mask_extent' raster sh window extent = Ok grid.
Proof.
  intros Hg sh.
  assert (Hwf : well_formed window).
  { unfold geojson_to_raster, check_shape in Hg.
    destruct (Z.ltb_spec (get_height window) 0);
      destruct (Z.ltb_spec (get_width window) 0);
      cbn [orb bind] in Hg; try discriminate.
    unfold get_height, get_width in *. split; lia. }
  split; [exact Hwf|].
  rewrite geojson_to_raster_unfold in Hg by exact Hwf. fold sh in Hg.
  destruct (burn_in' (window_shapes' tree (line_buffer opts) window) sh
                     (background_class_id opts)) as [raster|e];
    cbn [bind] in Hg; [|discriminate].
  exists raster. split; [reflexivity|exact Hg].
Qed.

(** Once numpy takes the shape and burn-in gives a raster, a grid is
    returned. *)
Lemma geojson_to_raster_returns (tree : STRtree) (opts : RasterizerOptions)
      (window : Box Z) (extent : Box Q) (raster : ndarray) :
  well_formed window ->
  let sh := (Z.to_nat (get_height window), Z.to_nat (get_width window)) in
  burn_in' (window_shapes' tree (line_buffer opts) window) sh
           (background_class_id opts) = Ok raster ->
  exists grid,
    geojson_to_raster' tree opts window extent = Ok grid /\
    mask_extent' raster sh window extent = Ok grid.
Proof.
  intros Hwf sh Hb. rewrite geojson_to_raster_unfold by exact Hwf.
  fold sh. rewrite Hb. cbn [bind].
  destruct (mask_extent_total raster sh window extent) as [grid Hg].
  exists grid. now rewrite Hg.
Qed.

Lemma burn_in_raises (shapes : list (Geometry * Z)) (sh : nat * nat) (bg : Z)
      (e : Exception) :
  burn_in' shapes sh bg = Raise e -> e = ValueError.
Proof.
  unfold burn_in. destruct shapes; [discriminate|].
  destruct (rasterize _ sh bg); [discriminate|]. congruence.
Qed.

(** The rasterizer fails with a ValueError or not at all: numpy refuses the
    shape, or rasterio refuses its arguments. *)
Lemma geojson_to_raster_raises (tree : STRtree) (opts : RasterizerOptions)
      (window : Box Z) (extent : Box Q) (e : Exception) :
  geojson_to_raster' tree opts window extent = Raise e -> e = ValueError.
Proof.
  unfold geojson_to_raster.
  destruct (check_shape (get_height window) (get_width window)) as [sh|e']
    eqn:Hs; cbn [bind].
  - destruct (burn_in' (window_shapes' tree (line_buffer opts) window) sh
                       (background_class_id opts)) as [raster|e'] eqn:Hb;
      cbn [bind].
    + intros H.
      destruct (mask_extent_total raster sh window extent) as [grid Hg].
      rewrite Hg in H. discriminate.
    + intros H. injection H as <-. eapply burn_in_raises, Hb.
  - intros H. injection H as <-. eapply check_shape_raises, Hs.
Qed.

(** The source hands the rasterizer's answer on and stays as it was. *)
Lemma get_chip_state (self : Source) (window : Box Z) :
  snd (get_chip' self window) = self.
Proof.
  unfold _get_chip. destruct (negb (activated STRtree self)); [reflexivity|].
  now destruct (str_tree STRtree self).
Qed.

Lemma get_chip_deactivated (self : Source) (window : Box Z) :
  activated STRtree self = false ->
  get_chip' self window = (Raise ActivationError, self).
Proof. intros H. unfold _get_chip. now rewrite H. Qed.

Lemma get_chip_activated (self : Source) (window : Box Z) (tree : STRtree) :
  activated STRtree self = true ->
  str_tree STRtree self = Some tree ->
  get_chip' self window =
  (chip <- geojson_to_raster' tree (rasterizer_options STRtree self) window
                              (get_extent STRtree self) ;;
   Ok (expand_dims2 chip), self).
Proof. intros Ha Ht. unfold _get_chip. now rewrite Ha, Ht. Qed.

(** C1 (the code departs from the claim).  Whenever the window meets the
    extent, the grid that [geojson_to_raster] returns is the array made by
    [np.zeros(out_shape)], whose element type is float64, and so is the chip
    of [_get_chip]: it is not the unsigned 8-bit type that [get_dtype]
    announces and that the other two branches produce. *)
Theorem C1_masked_grid_is_float64 :
  forall (self : Source) (tree : STRtree) (window : Box Z) (chip : ndarray3),
    activated STRtree self = true ->
    str_tree STRtree self = Some tree ->
    is_empty (valid_window' window (get_extent STRtree self)) = false ->
    fst (get_chip' self window) = Ok chip ->
    exists grid,
      geojson_to_raster' tree (rasterizer_options STRtree self) window
                         (get_extent STRtree self) = Ok grid /\
      chip = expand_dims2 grid /\
      dtype grid = float64 /\
      dtype3 chip = float64 /\
      dtype3 chip <> get_dtype STRtree self.
Proof.
  intros self tree window chip Ha Ht He Hchip.
  rewrite (get_chip_activated self window tree Ha Ht) in Hchip.
  cbn [fst] in Hchip.
  destruct (geojson_to_raster' tree (rasterizer_options STRtree self) window
                               (get_extent STRtree self)) as [grid|e] eqn:Hg;
    cbn [bind] in Hchip; [|discriminate].
  injection Hchip as <-. exists grid. split; [reflexivity|].
  split; [reflexivity|].
  assert (Hd : dtype grid = float64).
  { destruct (geojson_to_raster_ok _ _ _ _ _ Hg) as (_ & raster & _ & Hmask).
    destruct (mask_extent_nonempty
                raster
                (Z.to_nat (get_height window), Z.to_nat (get_width window))
                window _ He) as (b & _ & Hm).
    rewrite Hm in Hmask. injection Hmask as <-. now rewrite dtype_copy_slice. }
  split; [exact Hd|]. unfold expand_dims2. cbn [dtype3]. rewrite Hd.
  split; [reflexivity|discriminate].
Qed.

(** C3.  When the intersection of the window with the extent is empty, the
    grid that the rasterizer returns has the height and the width of the
    window (rasterio returning the shape it is asked for) and every cell of
    it is 0, whatever was burned in and whatever the background class is. *)
Theorem C3_outside_extent_all_zero :
  forall (tree : STRtree) (opts : RasterizerOptions)
         (window : Box Z) (extent : Box Q) (grid : ndarray),
    rasterize_shape_law' ->
    is_empty (valid_window' window extent) = true ->
    geojson_to_raster' tree opts window extent = Ok grid ->
    let h := Z.to_nat (get_height window) in
    let w := Z.to_nat (get_width window) in
    shape grid = (h, w) /\
    data grid = repeat (repeat 0 w) h /\
    forall r c, (r < h)%nat -> (c < w)%nat -> getitem grid r c = 0.
Proof.
  intros tree opts window extent grid Hlaw He Hg h w.
  destruct (geojson_to_raster_ok _ _ _ _ _ Hg) as (_ & raster & Hb & Hmask).
  fold h w in Hb, Hmask.
  rewrite mask_extent_empty in Hmask by exact He. injection Hmask as <-.
  assert (Hs : shape raster = (h, w)).
  { unfold burn_in in Hb.
    destruct (window_shapes' tree (line_buffer opts) window) as [|sc l].
    - injection Hb as <-. reflexivity.
    - destruct (rasterize (sc :: l) (h, w) (background_class_id opts))
        as [a|] eqn:Hr; [|discriminate].
      injection Hb as <-. exact (Hlaw _ _ _ _ Hr). }
  unfold fill_all. cbn [shape data]. rewrite Hs, cast_zero. cbn [fst snd].
  split; [reflexivity|]. split; [reflexivity|].
  intros r c Hr Hc. unfold getitem. cbn [data].
  rewrite nth_repeat_lt by exact Hr. now rewrite nth_repeat_lt.
Qed.

(** ** Extent masking *)

Lemma withinb_bounds (b : Box Q) (g : Geometry) (x0 y0 x1 y1 : Q) :
  withinb b g = true ->
  bounds g = Some (x0, y0, x1, y1) ->
  (xmin b <= x0)%Q /\ (ymin b <= y0)%Q /\ (xmin b <= x1)%Q /\ (ymin b <= y1)%Q.
Proof.
  unfold withinb, bounds. intros Hin Hb.
  destruct (coords g) as [|c cs]; [discriminate|].
  injection Hb as <- <- <- <-.
  rewrite forallb_forall in Hin.
  assert (Hc : forall c', In c' (c :: cs) ->
                          (xmin b <= coord_x c')%Q /\ (ymin b <= coord_y c')%Q).
  { intros c' Hc'. specialize (Hin c' Hc').
    rewrite !andb_true_iff, !Qle_bool_iff in Hin. tauto. }
  repeat split.
  - apply qmin_list_ge; [apply Hc; now left|].
    apply Forall_map, Forall_forall. intros c' Hc'. apply Hc. now right.
  - apply qmin_list_ge; [apply Hc; now left|].
    apply Forall_map, Forall_forall. intros c' Hc'. apply Hc. now right.
  - apply qmax_list_ge, Hc. now left.
  - apply qmax_list_ge, Hc. now left.
Qed.

Lemma bounds_nonempty (g : Geometry) :
  is_empty g = false -> exists x0 y0 x1 y1, bounds g = Some (x0, y0, x1, y1).
Proof.
  unfold is_empty, bounds. destruct (coords g); [discriminate|].
  intros _. repeat eexists.
Qed.

Lemma Qfloor_nonneg (q : Q) : (0 <= q)%Q -> 0 <= Qfloor q.
Proof. intros H. apply Qfloor_resp_le in H. exact H. Qed.

Lemma getitem_np_zeros (sh : nat * nat) (r c : nat) :
  (r < fst sh)%nat -> (c < snd sh)%nat -> getitem (np_zeros sh) r c = 0.
Proof.
  destruct sh as [h w]. intros Hr Hc. unfold np_zeros.
  now rewrite getitem_np_full.
Qed.

(** C5.  When the window meets the extent, let [vw] be the box of the valid
    part moved into the window's frame, each bound rounded down.  In the
    grid that the rasterizer returns, a cell with row in
    [ymin vw, ymax vw) and column in [xmin vw, xmax vw) holds the value
    the burned grid has there, and every other cell holds 0.  The valid part
    lies in the window, as an intersection with the window does. *)
Theorem C5_extent_mask :
  forall (tree : STRtree) (opts : RasterizerOptions)
         (window : Box Z) (extent : Box Q) (grid : ndarray),
    is_empty (valid_window' window extent) = false ->
    withinb (box_to_float window) (valid_window' window extent) = true ->
    geojson_to_raster' tree opts window extent = Ok grid ->
    let h := Z.to_nat (get_height window) in
    let w := Z.to_nat (get_width window) in
    exists b burned,
      from_shapely (transform (to_window_frame window)
                              (valid_window' window extent)) = Ok b /\
      burn_in' (window_shapes' tree (line_buffer opts) window)
               (h, w) (background_class_id opts) = Ok burned /\
      forall r c, (r < h)%nat -> (c < w)%nat ->
        getitem grid r c =
        if ((Qfloor (ymin b) <=? Z.of_nat r) && (Z.of_nat r <? Qfloor (ymax b)))
           && ((Qfloor (xmin b) <=? Z.of_nat c) && (Z.of_nat c <? Qfloor (xmax b)))
        then getitem burned r c
        else 0.
Proof.
  intros tree opts window extent grid He Hin Hg h w.
  destruct (geojson_to_raster_ok _ _ _ _ _ Hg) as (_ & burned & Hburn & Hmask).
  fold h w in Hburn, Hmask.
  destruct (bounds_nonempty _ He) as (x0 & y0 & x1 & y1 & Hb).
  destruct (withinb_bounds _ _ _ _ _ _ Hin Hb) as (Hx0 & Hy0 & Hx1 & Hy1).
  cbn [box_to_float xmin ymin] in Hx0, Hy0, Hx1, Hy1.
  destruct (bounds_to_window_frame window _ _ _ _ _ Hb)
    as (b & Hfrom & Exmin & Eymin & Exmax & Eymax).
  destruct (mask_extent_nonempty burned (h, w) window extent He)
    as (b' & Hfrom' & Hm).
  rewrite Hfrom in Hfrom'. injection Hfrom' as <-.
  rewrite Hm in Hmask. injection Hmask as <-.
  exists b, burned. split; [exact Hfrom|]. split; [exact Hburn|].
  intros r c Hr Hc.
  rewrite getitem_copy_slice by (cbn; assumption).
  cbn [np_zeros np_full shape dtype fst snd to_int xmin ymin xmax ymax cast].
  rewrite !in_slice_nonneg; try assumption;
    try (apply Qfloor_nonneg; lra).
  destruct ((Qfloor (ymin b) <=? Z.of_nat r) && (Z.of_nat r <? Qfloor (ymax b))
            && ((Qfloor (xmin b) <=? Z.of_nat c)
                && (Z.of_nat c <? Qfloor (xmax b)))); [reflexivity|].
  apply (getitem_np_zeros (h, w)); assumption.
Qed.

(** ** Windows inside the extent *)

Lemma inject_Z_sub (a b : Z) :
  (inject_Z a - inject_Z b == inject_Z (a - b))%Q.
Proof.
  unfold Qminus. now rewrite <- inject_Z_opp, <- inject_Z_plus.
Qed.

Lemma cropped_shapes_nil (tree : STRtree) (lb : Q) (window : Box Z) :
  (forall s c,
      In (s, c) (query tree (to_shapely (box_to_float window))) ->
      is_empty (intersection s (to_shapely (box_to_float window))) = true) ->
  cropped_shapes' tree lb window = [].
Proof.
  intros Hall. unfold cropped_shapes.
  remember (query tree (to_shapely (box_to_float window))) as l eqn:El.
  clear El. induction l as [|[s c] l IH]; [reflexivity|].
  cbn [map filter fst snd]. rewrite (Hall s c) by (now left). cbn [negb].
  apply IH. intros s' c' Hin'. apply (Hall s' c'). now right.
Qed.

(** A window of positive area inside the extent is valid as a whole. *)
Lemma mask_extent_inside (raster : ndarray) (window : Box Z) (extent : Box Q) :
  rectangle_law' ->
  ymin window < ymax window -> xmin window < xmax window ->
  box_inside (box_to_float window) extent ->
  let sh := (Z.to_nat (get_height window), Z.to_nat (get_width window)) in
  mask_extent' raster sh window extent =
  Ok (copy_slice (np_zeros sh) raster 0 (get_height window)
                 0 (get_width window)).
Proof.
  intros Hlaw Hy Hx Hin sh.
  destruct (Hlaw (box_to_float window) extent) as
      (x0 & y0 & x1 & y1 & Hb & Ex0 & Ey0 & Ex1 & Ey1).
  { cbn. now rewrite <- Zlt_Qlt. }
  { cbn. now rewrite <- Zlt_Qlt. }
  { exact Hin. }
  cbn [box_to_float xmin ymin xmax ymax] in Ex0, Ey0, Ex1, Ey1.
  fold (valid_window' window extent) in Hb.
  assert (He : is_empty (valid_window' window extent) = false).
  { unfold is_empty. unfold bounds in Hb.
    now destruct (coords (valid_window' window extent)). }
  destruct (bounds_to_window_frame window _ _ _ _ _ Hb)
    as (b & Hfrom & Exmin & Eymin & Exmax & Eymax).
  destruct (mask_extent_nonempty raster sh window extent He)
    as (b' & Hfrom' & Hm).
  rewrite Hfrom in Hfrom'. injection Hfrom' as <-.
  rewrite Hm. unfold to_int. cbn [xmin ymin xmax ymax].
  rewrite Ex0, inject_Z_sub in Exmin. rewrite Ey0, inject_Z_sub in Eymin.
  rewrite Ex1, inject_Z_sub in Exmax. rewrite Ey1, inject_Z_sub in Eymax.
  rewrite Exmin, Eymin, Exmax, Eymax, !Qfloor_Z.
  rewrite !Z.sub_diag. reflexivity.
Qed.

(** C6 (amended).  For a window inside the extent none of whose candidates
    has a non-empty intersection with it, and a background class that an
    unsigned 8-bit cell can hold, burn-in is skipped and every cell of the
    grid, and of the chip that [_get_chip] makes of it, is the background
    class. *)
Theorem C6_background_inside_extent :
  forall (self : Source) (tree : STRtree) (window : Box Z),
    let opts := rasterizer_options STRtree self in
    rectangle_law' ->
    activated STRtree self = true ->
    str_tree STRtree self = Some tree ->
    well_formed window ->
    box_inside (box_to_float window) (get_extent STRtree self) ->
    (forall s c,
        In (s, c) (query tree (to_shapely (box_to_float window))) ->
        is_empty (intersection s (to_shapely (box_to_float window))) = true) ->
    0 <= background_class_id opts <= 255 ->
    window_shapes' tree (line_buffer opts) window = [] /\
    exists grid chip,
      geojson_to_raster' tree opts window (get_extent STRtree self) = Ok grid /\
      fst (get_chip' self window) = Ok chip /\
      chip = expand_dims2 grid /\
      forall r c,
        (r < Z.to_nat (get_height window))%nat ->
        (c < Z.to_nat (get_width window))%nat ->
        getitem grid r c = background_class_id opts /\
        getitem3 chip r c 0 = background_class_id opts.
Proof.
  intros self tree window opts Hlaw Ha Ht Hwf Hin Hnone Hbg.
  assert (Hshapes : window_shapes' tree (line_buffer opts) window = []).
  { unfold window_shapes. now rewrite cropped_shapes_nil. }
  split; [exact Hshapes|].
  rewrite (get_chip_activated self window tree Ha Ht). fold opts.
  assert (Hburn : burn_in' (window_shapes' tree (line_buffer opts) window)
                           (Z.to_nat (get_height window),
                            Z.to_nat (get_width window))
                           (background_class_id opts)
                  = Ok (np_full (Z.to_nat (get_height window),
                                 Z.to_nat (get_width window))
                                (background_class_id opts) uint8)).
  { now rewrite Hshapes. }
  destruct (Z_lt_le_dec (ymin window) (ymax window)) as [Hy|Hy];
    [destruct (Z_lt_le_dec (xmin window) (xmax window)) as [Hx|Hx]|].
  - rewrite geojson_to_raster_unfold by exact Hwf. cbv zeta.
    rewrite Hburn. cbn [bind].
    rewrite mask_extent_inside by assumption.
    eexists. eexists. split; [reflexivity|]. split; [reflexivity|].
    split; [reflexivity|]. intros r c Hr Hc.
    rewrite getitem3_expand_dims2;
      [|apply well_shaped_copy_slice
       |rewrite shape_copy_slice; exact Hr
       |rewrite shape_copy_slice; exact Hc].
    enough (H : getitem
                  (copy_slice
                     (np_zeros (Z.to_nat (get_height window),
                                Z.to_nat (get_width window)))
                     (np_full (Z.to_nat (get_height window),
                               Z.to_nat (get_width window))
                              (background_class_id opts) uint8)
                     0 (get_height window) 0 (get_width window)) r c
                = background_class_id opts) by (split; exact H).
    rewrite getitem_copy_slice by (cbn; assumption).
    cbn [np_zeros np_full shape dtype fst snd cast].
    rewrite !in_slice_nonneg;
      try assumption; try lia; try (unfold get_height, get_width; lia).
    destruct (Z.leb_spec 0 (Z.of_nat r)); [|lia].
    destruct (Z.leb_spec 0 (Z.of_nat c)); [|lia].
    destruct (Z.ltb_spec (Z.of_nat r) (get_height window)); [|lia].
    destruct (Z.ltb_spec (Z.of_nat c) (get_width window)); [|lia].
    cbn [andb].
    change (getitem (np_full (Z.to_nat (get_height window),
                              Z.to_nat (get_width window))
                             (background_class_id opts) uint8) r c
            = background_class_id opts).
    rewrite getitem_np_full by assumption.
    cbn [cast]. apply Z.mod_small. lia.
  - destruct (geojson_to_raster_returns tree opts window
                (get_extent STRtree self) _ Hwf Hburn) as (g & Hg & _).
    exists g, (expand_dims2 g). rewrite Hg.
    split; [reflexivity|]. split; [reflexivity|]. split; [reflexivity|].
    intros r c _ Hc. unfold get_width in Hc. lia.
  - destruct (geojson_to_raster_returns tree opts window
                (get_extent STRtree self) _ Hwf Hburn) as (g & Hg & _).
    exists g, (expand_dims2 g). rewrite Hg.
    split; [reflexivity|]. split; [reflexivity|]. split; [reflexivity|].
    intros r c Hr _. unfold get_height in Hr. lia.
Qed.

(** ** Line buffering *)

Lemma window_shapes_closed_form (tree : STRtree) (lb : Q) (window : Box Z) :
  let w := to_shapely (box_to_float window) in
  window_shapes' tree lb window =
  map (fun sc =>
         let clipped := intersection (fst sc) w in
         (transform (to_window_frame window)
                    (if is_LineString clipped then buffer clipped lb
                     else clipped),
          snd sc))
      (filter (fun sc => negb (is_empty (intersection (fst sc) w)))
              (query tree w)).
Proof.
  intros w. unfold window_shapes, cropped_shapes. fold w.
  induction (query tree w) as [|[s c] l IH]; [reflexivity|].
  cbn [map filter fst snd].
  destruct (is_empty (intersection s w)); cbn [negb]; [exact IH|].
  cbn [map fst snd]. rewrite IH.
  now destruct (is_LineString (intersection s w)).
Qed.

(** C2 (amended).  The shapes handed to burn-in are, in query order, the
    non-empty clipped candidates, each moved into the window's frame, where
    a clipped result whose class is exactly LineString is first replaced by
    the buffer of that clipped result.  So a candidate whose clipped result
    is a non-empty LineString reaches burn-in as the buffer, by
    [line_buffer], of the clipped geometry: buffering comes after clipping,
    never before. *)
Theorem C2_buffer_after_clip :
  forall (tree : STRtree) (lb : Q) (window : Box Z),
    let w := to_shapely (box_to_float window) in
    let reframe := transform (to_window_frame window) in
    window_shapes' tree lb window =
    map (fun sc =>
           let clipped := intersection (fst sc) w in
           (reframe (if is_LineString clipped then buffer clipped lb
                     else clipped),
            snd sc))
        (filter (fun sc => negb (is_empty (intersection (fst sc) w)))
                (query tree w)) /\
    forall s c,
      In (s, c) (query tree w) ->
      is_empty (intersection s w) = false ->
      is_LineString (intersection s w) = true ->
      In (reframe (buffer (intersection s w) lb), c)
         (window_shapes' tree lb window).
Proof.
  intros tree lb window w reframe.
  split; [apply window_shapes_closed_form|].
  intros s c Hin He Hline.
  rewrite window_shapes_closed_form. fold w. apply in_map_iff.
  exists (s, c). cbn [fst snd]. split.
  - now rewrite Hline.
  - apply filter_In. split; [exact Hin|]. cbn [fst]. now rewrite He.
Qed.

(** ** The third coordinate *)

Lemma transform_compose (f f' : CoordFn) (g : Geometry) :
  (forall c, apply_coord f (apply_coord f' c) = apply_coord f c) ->
  transform f (transform f' g) = transform f g.
Proof.
  intros Hc.
  assert (Hm : forall cs, map (apply_coord f) (map (apply_coord f') cs)
                          = map (apply_coord f) cs).
  { intros cs. rewrite map_map. now apply map_ext. }
  assert (Hmm : forall rings,
             map (map (apply_coord f)) (map (map (apply_coord f')) rings)
             = map (map (apply_coord f)) rings).
  { intros rings. rewrite map_map. now apply map_ext. }
  induction g using Geometry_nested_ind; cbn [transform]; f_equal; auto.
  - rewrite map_map. now apply map_ext.
  - rewrite map_map. apply map_ext_Forall. exact H.
Qed.

Lemma to_window_frame_force_2d (window : Box Z) (g : Geometry) :
  transform (to_window_frame window) (force_2d g)
  = transform (to_window_frame window) g.
Proof.
  apply transform_compose. now intros [[x y] z].
Qed.

Lemma is_LineString_transform (f : CoordFn) (g : Geometry) :
  is_LineString (transform f g) = is_LineString g.
Proof. now destruct g. Qed.

Lemma same_2d_is_empty (g g' : Geometry) :
  force_2d g = force_2d g' -> is_empty g = is_empty g'.
Proof.
  intros H. rewrite <- (is_empty_transform (fun x y _ => (x, y)) g).
  rewrite <- (is_empty_transform (fun x y _ => (x, y)) g').
  unfold force_2d in H. now rewrite H.
Qed.

Lemma same_2d_is_LineString (g g' : Geometry) :
  force_2d g = force_2d g' -> is_LineString g = is_LineString g'.
Proof.
  intros H. rewrite <- (is_LineString_transform (fun x y _ => (x, y)) g).
  rewrite <- (is_LineString_transform (fun x y _ => (x, y)) g').
  unfold force_2d in H. now rewrite H.
Qed.

Lemma Forall2_map {A B A' B' : Type} (R : A -> B -> Prop)
      (R' : A' -> B' -> Prop) (f : A -> A') (f' : B -> B') l l' :
  (forall a b, R a b -> R' (f a) (f' b)) ->
  Forall2 R l l' -> Forall2 R' (map f l) (map f' l').
Proof. intros Hf H. induction H; cbn; constructor; auto. Qed.

Lemma Forall2_filter {A B : Type} (R : A -> B -> Prop)
      (p : A -> bool) (p' : B -> bool) l l' :
  (forall a b, R a b -> p a = p' b) ->
  Forall2 R l l' -> Forall2 R (filter p l) (filter p' l').
Proof.
  intros Hp H. induction H as [|a b l l' Hab _ IH]; cbn; [constructor|].
  rewrite (Hp a b Hab). destruct (p' b); [constructor|]; assumption.
Qed.

Lemma Forall2_eq {A : Type} (l l' : list A) : Forall2 eq l l' -> l = l'.
Proof. intros H. induction H; congruence. Qed.

Lemma window_shapes_footprint (shapes shapes' : list (Geometry * Z))
      (lb : Q) (window : Box Z) :
  footprint_laws' ->
  Forall2 same_footprint shapes shapes' ->
  window_shapes' (STRtree_build shapes) lb window
  = window_shapes' (STRtree_build shapes') lb window.
Proof.
  intros (Hinter & Hbuf & Hquery) Hsame.
  apply Forall2_eq. unfold window_shapes, cropped_shapes.
  eapply Forall2_map with (R := same_footprint).
  { intros [g c] [g' c'] [Hg Hc]. cbn [fst snd] in *. subst c'.
    f_equal. rewrite <- (to_window_frame_force_2d window g), Hg.
    apply to_window_frame_force_2d. }
  eapply Forall2_map with (R := same_footprint).
  { intros [g c] [g' c'] [Hg Hc]. cbn [fst snd] in *.
    rewrite (same_2d_is_LineString g g' Hg).
    destruct (is_LineString g'); split; cbn [fst snd]; auto. }
  apply Forall2_filter with (R := same_footprint).
  { intros [g c] [g' c'] [Hg Hc]. cbn [fst snd] in *.
    now rewrite (same_2d_is_empty g g' Hg). }
  eapply Forall2_map with (R := same_footprint).
  { intros [g c] [g' c'] [Hg Hc]. split; cbn [fst snd] in *; auto. }
  now apply Hquery.
Qed.

(** C10.  [to_window_frame] takes an optional z and returns only the moved
    x and y, so a shape in the window's frame has no z left; and as long as
    the geometry engine and the index work on x and y, two sets of shapes
    that differ only in z coordinates give the same grid for every window. *)
Theorem C10_z_is_discarded :
  (forall window x y z,
      to_window_frame window x y z
      = ((x - inject_Z (xmin window))%Q, (y - inject_Z (ymin window))%Q)) /\
  (forall window g,
      Forall (fun c => coord_z c = None)
             (coords (transform (to_window_frame window) g))) /\
  (footprint_laws' ->
   forall shapes shapes' opts window extent,
     Forall2 same_footprint shapes shapes' ->
     geojson_to_raster' (STRtree_build shapes) opts window extent
     = geojson_to_raster' (STRtree_build shapes') opts window extent).
Proof.
  split; [reflexivity|]. split.
  - intros window g. rewrite coords_transform.
    apply Forall_map, Forall_forall. now intros [[x y] z] _.
  - intros Hlaws shapes shapes' opts window extent Hsame.
    unfold geojson_to_raster.
    now rewrite (window_shapes_footprint shapes shapes' _ window Hlaws Hsame).
Qed.

(** ** The source: activation, chips *)


(** C7.  A call of [_get_chip] leaves the source as it was (vector source,
    options, extent, activation flag and index), so a second call with the
    same window on the source left by the first returns the same outcome:
    the same array, cell for cell, or the same exception.  The outcome is a
    function of the window, the flag, the index, the options and the extent:
    it is the same on any source that agrees on these. *)
Theorem C7_get_chip_idempotent :
  forall (self : Source) (window : Box Z),
    let first := get_chip' self window in
    let second := get_chip' (snd first) window in
    fst second = fst first /\
    snd first = self /\ snd second = self /\
    str_tree STRtree (snd first) = str_tree STRtree self /\
    rasterizer_options STRtree (snd first) = rasterizer_options STRtree self /\
    extent STRtree (snd first) = extent STRtree self /\
    activated STRtree (snd first) = activated STRtree self /\
    forall shapes,
      fst (get_chip'
             (mkSource STRtree shapes (rasterizer_options STRtree self)
                       (extent STRtree self) (activated STRtree self)
                       (str_tree STRtree self))
             window)
      = fst first.
Proof.
  intros self window first second. subst first second.
  rewrite !get_chip_state. repeat split; try reflexivity.
  intros shapes. unfold _get_chip. cbn [activated str_tree].
  destruct (activated STRtree self); cbn [negb]; [|reflexivity].
  destruct (str_tree STRtree self); reflexivity.
Qed.

(** ** Shapes *)

Lemma shape_burn_in (shapes : list (Geometry * Z)) (sh : nat * nat) (bg : Z)
      (raster : ndarray) :
  rasterize_shape_law' ->
  burn_in' shapes sh bg = Ok raster -> shape raster = sh.
Proof.
  intros Hlaw Hb. unfold burn_in in Hb. destruct shapes as [|sc l].
  - injection Hb as <-. reflexivity.
  - destruct (rasterize (sc :: l) sh bg) as [a|] eqn:Hr; [|discriminate].
    injection Hb as <-. exact (Hlaw _ _ _ _ Hr).
Qed.

(** The grid of the rasterizer is as high and as wide as the window. *)
Lemma geojson_to_raster_shape (tree : STRtree) (opts : RasterizerOptions)
      (window : Box Z) (extent : Box Q) (grid : ndarray) :
  rasterize_shape_law' ->
  geojson_to_raster' tree opts window extent = Ok grid ->
  shape grid = (Z.to_nat (get_height window), Z.to_nat (get_width window)) /\
  well_shaped grid.
Proof.
  intros Hlaw Hg.
  destruct (geojson_to_raster_ok _ _ _ _ _ Hg) as (_ & raster & Hb & Hmask).
  destruct (is_empty (valid_window' window extent)) eqn:He.
  - rewrite mask_extent_empty in Hmask by exact He. injection Hmask as <-.
    split.
    + unfold fill_all. cbn [shape]. eapply shape_burn_in; eassumption.
    + apply well_shaped_fill_all.
  - destruct (mask_extent_nonempty
                raster
                (Z.to_nat (get_height window), Z.to_nat (get_width window))
                window extent He) as (b & _ & Hm).
    rewrite Hm in Hmask. injection Hmask as <-. split.
    + now rewrite shape_copy_slice.
    + apply well_shaped_copy_slice.
Qed.

(** C8.  A chip that [_get_chip] returns on an activated source is the
    rasterizer's grid, of shape (height, width), with a channel axis of
    length one added: shape (height, width, 1), and the rows, the cells and
    the channel entries are as many as the shape says. *)
Theorem C8_chip_shape :
  forall (self : Source) (tree : STRtree) (window : Box Z) (chip : ndarray3),
    rasterize_shape_law' ->
    activated STRtree self = true ->
    str_tree STRtree self = Some tree ->
    fst (get_chip' self window) = Ok chip ->
    let h := Z.to_nat (get_height window) in
    let w := Z.to_nat (get_width window) in
    exists grid,
      geojson_to_raster' tree (rasterizer_options STRtree self) window
                         (get_extent STRtree self) = Ok grid /\
      shape grid = (h, w) /\
      chip = expand_dims2 grid /\
      shape3 chip = (h, w, 1%nat) /\
      length (data3 chip) = h /\
      Forall (fun row => length row = w /\
                         Forall (fun cell => length cell = 1%nat) row)
             (data3 chip).
Proof.
  intros self tree window chip Hlaw Ha Ht Hchip h w.
  rewrite (get_chip_activated self window tree Ha Ht) in Hchip.
  cbn [fst] in Hchip.
  destruct (geojson_to_raster' tree (rasterizer_options STRtree self) window
                               (get_extent STRtree self)) as [grid|e] eqn:Hg;
    cbn [bind] in Hchip; [|discriminate].
  injection Hchip as <-.
  destruct (geojson_to_raster_shape _ _ _ _ _ Hlaw Hg) as [Hs [Hlen Hrows]].
  exists grid.
  split; [reflexivity|]. split; [exact Hs|]. split; [reflexivity|].
  unfold expand_dims2. cbn [shape3 data3]. rewrite Hs in *. cbn [fst snd] in *.
  split; [reflexivity|]. split; [now rewrite length_map|].
  apply Forall_forall. intros row Hrow. apply in_map_iff in Hrow.
  destruct Hrow as (row0 & <- & Hin). rewrite length_map. split.
  - rewrite Forall_forall in Hrows. now apply Hrows.
  - apply Forall_forall. intros cell Hcell. apply in_map_iff in Hcell.
    now destruct Hcell as (v & <- & _).
Qed.

(** ** The life cycle *)

Lemma index_invariant_step (self : Source) (c : Call) :
  index_invariant' self ->
  index_invariant' (step intersection buffer rasterize STRtree STRtree_build
                        query self c).
Proof.
  intros Hinv. destruct c as [| |window]; cbn [step].
  - left. split; reflexivity.
  - right. split; reflexivity.
  - now rewrite get_chip_state.
Qed.

Lemma index_invariant_run (cs : list Call) (self : Source) :
  index_invariant' self ->
  index_invariant' (run intersection buffer rasterize STRtree STRtree_build
                       query self cs).
Proof.
  revert self. induction cs as [|c cs IH]; intros self Hinv; cbn; [exact Hinv|].
  apply IH, index_invariant_step, Hinv.
Qed.

(** C9.  Start from a fresh source and make any calls of activate,
    deactivate and get_chip.  In the state reached, the flag is set exactly
    when an index is held; [_activate] leaves the flag set and the index
    built over the source's shapes, [_deactivate] leaves the flag cleared and
    no index; and [_get_chip] never fails for want of an index. *)
Theorem C9_flag_tracks_index :
  forall (shapes : list (Geometry * Z)) (opts : RasterizerOptions)
         (extent : Box Q) (calls : list Call),
    let self := run intersection buffer rasterize STRtree STRtree_build query
                    (init STRtree shapes opts extent) calls in
    (activated STRtree self = true
     <-> exists tree, str_tree STRtree self = Some tree) /\
    (activated STRtree (activate' self) = true /\
     str_tree STRtree (activate' self)
     = Some (STRtree_build (vector_source STRtree self))) /\
    (activated STRtree (deactivate' self) = false /\
     str_tree STRtree (deactivate' self) = None) /\
    (forall window, fst (get_chip' self window) <> Raise AttributeError).
Proof.
  intros shapes opts extent calls self.
  assert (Hinv : index_invariant' self).
  { apply index_invariant_run. right. split; reflexivity. }
  split; [|split; [|split]].
  - destruct Hinv as [[Ha Ht]|[Ha Ht]]; rewrite Ha, Ht; split.
    + eauto.
    + reflexivity.
    + discriminate.
    + intros [tree H]. discriminate.
  - split; reflexivity.
  - split; reflexivity.
  - intros window H. destruct Hinv as [[Ha Ht]|[Ha Ht]].
    + rewrite (get_chip_activated self window _ Ha Ht) in H. cbn [fst] in H.
      destruct (geojson_to_raster' (STRtree_build (vector_source STRtree self))
                  (rasterizer_options STRtree self) window
                  (get_extent STRtree self)) as [g|e] eqn:Hg;
        cbn [bind] in H; [discriminate|].
      apply geojson_to_raster_raises in Hg. congruence.
    + rewrite get_chip_deactivated in H by exact Ha. discriminate.
Qed.


(** ** Further properties of the rasterizer and of the source *)


(** X2.  Clipping, buffering and reframing never touch a label: the class
    ids handed to burn-in are those of the candidates whose clipped result
    is not empty, in query order, so there are at most as many shapes as
    candidates. *)
Theorem X2_labels_follow_candidates :
  forall (tree : STRtree) (lb : Q) (window : Box Z),
    let w := to_shapely (box_to_float window) in
    map snd (window_shapes' tree lb window)
    = map snd (filter (fun sc => negb (is_empty (intersection (fst sc) w)))
                      (query tree w)) /\
    (length (window_shapes' tree lb window) <= length (query tree w))%nat.
Proof.
  intros tree lb window w.
  rewrite window_shapes_closed_form. fold w. split.
  - now rewrite map_map.
  - rewrite length_map. apply filter_length_le.
Qed.

(** X3.  From a fresh source, whatever calls are made, only two states are
    ever reached: the fresh one and the activated one.  In particular the
    vector source, the options and the extent never change, and activating
    again after a deactivation rebuilds the same index. *)
Theorem X3_two_reachable_states :
  forall (shapes : list (Geometry * Z)) (opts : RasterizerOptions)
         (extent : Box Q) (calls : list Call),
    let fresh := init STRtree shapes opts extent in
    run' fresh calls = fresh \/ run' fresh calls = activate' fresh.
Proof.
  intros shapes opts extent calls fresh.
  assert (H : forall s, s = fresh \/ s = activate' fresh ->
                        run' s calls = fresh \/ run' s calls = activate' fresh).
  { induction calls as [|c calls IH]; intros s Hs; [exact Hs|].
    cbn [run fold_left]. apply IH.
    destruct c as [| |window]; cbn [step].
    - right. destruct Hs as [->| ->]; reflexivity.
    - left. destruct Hs as [->| ->]; reflexivity.
    - now rewrite get_chip_state. }
  apply H. now left.
Qed.

Lemma run_app (self : Source) (cs cs' : list Call) :
  run' self (cs ++ cs') = run' (run' self cs) cs'.
Proof. unfold run. apply fold_left_app. Qed.

Lemma run_config (cs : list Call) (self : Source) :
  vector_source STRtree (run' self cs) = vector_source STRtree self /\
  rasterizer_options STRtree (run' self cs) = rasterizer_options STRtree self /\
  extent STRtree (run' self cs) = extent STRtree self.
Proof.
  revert self. induction cs as [|c cs IH]; intros self; [now repeat split|].
  cbn [run fold_left].
  destruct (IH (step intersection buffer rasterize STRtree STRtree_build query
                     self c)) as (Hv & Ho & He).
  unfold run in *. rewrite Hv, Ho, He.
  destruct c as [| |window]; cbn [step]; try (now repeat split).
  now rewrite get_chip_state.
Qed.

(** X4.  The last activate or deactivate decides: after any calls that end
    in a deactivation a chip is refused with ActivationError, and after any
    calls that end in an activation the outcome is that of the rasterizer
    on the index built over the shapes the source was made with, with its
    options and its extent. *)
Theorem X4_last_lifecycle_call_decides :
  forall (shapes : list (Geometry * Z)) (opts : RasterizerOptions)
         (extent : Box Q) (calls : list Call) (window : Box Z),
    let fresh := init STRtree shapes opts extent in
    fst (get_chip' (run' fresh (calls ++ [CallDeactivate])) window)
    = Raise ActivationError /\
    fst (get_chip' (run' fresh (calls ++ [CallActivate])) window)
    = (grid <- geojson_to_raster' (STRtree_build shapes) opts window extent ;;
       Ok (expand_dims2 grid)).
Proof.
  intros shapes opts ext calls window fresh. rewrite !run_app.
  cbn [run fold_left step]. split.
  - now rewrite get_chip_deactivated.
  - rewrite (get_chip_activated
               (activate' (run' fresh calls)) window
               (STRtree_build (vector_source STRtree (run' fresh calls))))
      by reflexivity.
    cbn [fst]. unfold get_extent, _activate.
    cbn [rasterizer_options extent].
    destruct (run_config calls fresh) as (Hv & Ho & He).
    unfold run in *. now rewrite Hv, Ho, He.
Qed.

Lemma getitem_cells (P : Z -> Prop) (a : ndarray) (r c : nat) :
  P 0 -> Forall (Forall P) (data a) -> P (getitem a r c).
Proof.
  intros H0 Hall. unfold getitem.
  assert (Hrow : Forall P (nth r (data a) [])).
  { destruct (Nat.lt_ge_cases r (length (data a))) as [Hr|Hr].
    - rewrite Forall_forall in Hall. now apply Hall, nth_In.
    - rewrite nth_overflow by exact Hr. constructor. }
  destruct (Nat.lt_ge_cases c (length (nth r (data a) []))) as [Hc|Hc].
  - rewrite Forall_forall in Hrow. now apply Hrow, nth_In.
  - now rewrite nth_overflow.
Qed.

Lemma cells_tabulate (P : Z -> Prop) (h w : nat) (f : nat -> nat -> Z) :
  (forall r c, P (f r c)) ->
  Forall (Forall P) (tabulate h (fun r => tabulate w (fun c => f r c))).
Proof.
  intros Hf. apply Forall_forall. intros row Hrow. unfold tabulate in Hrow.
  apply in_map_iff in Hrow. destruct Hrow as (r & <- & _).
  apply Forall_forall. intros v Hv. apply in_map_iff in Hv.
  destruct Hv as (c & <- & _). apply Hf.
Qed.

Lemma cells_repeat (P : Z -> Prop) (h w : nat) (v : Z) :
  P v -> Forall (Forall P) (repeat (repeat v w) h).
Proof.
  intros Hv. apply Forall_forall. intros row Hrow.
  apply repeat_spec in Hrow. subst row. apply Forall_forall.
  intros v' Hv'. apply repeat_spec in Hv'. now subst v'.
Qed.

Lemma uint8_range_zero : uint8_range 0.
Proof. unfold uint8_range. lia. Qed.

Lemma cells_burn_in (shapes : list (Geometry * Z)) (sh : nat * nat) (bg : Z)
      (raster : ndarray) :
  rasterize_uint8_law' ->
  burn_in' shapes sh bg = Ok raster ->
  Forall (Forall uint8_range) (data raster).
Proof.
  intros Hlaw Hb. unfold burn_in in Hb. destruct shapes as [|sc l].
  - injection Hb as <-. cbn [np_full data cast]. apply cells_repeat.
    unfold uint8_range. pose proof (Z.mod_pos_bound bg 256). lia.
  - destruct (rasterize (sc :: l) sh bg) as [a|] eqn:Hr; [|discriminate].
    injection Hb as <-. exact (Hlaw _ _ _ _ Hr).
Qed.

Lemma cells_geojson_to_raster (tree : STRtree) (opts : RasterizerOptions)
      (window : Box Z) (extent : Box Q) (grid : ndarray) :
  rasterize_uint8_law' ->
  geojson_to_raster' tree opts window extent = Ok grid ->
  Forall (Forall uint8_range) (data grid).
Proof.
  intros Hlaw Hg.
  destruct (geojson_to_raster_ok _ _ _ _ _ Hg) as (_ & raster & Hb & Hmask).
  destruct (is_empty (valid_window' window extent)) eqn:He.
  - rewrite mask_extent_empty in Hmask by exact He. injection Hmask as <-.
    unfold fill_all. cbn [data]. rewrite cast_zero.
    apply cells_repeat, uint8_range_zero.
  - destruct (mask_extent_nonempty
                raster
                (Z.to_nat (get_height window), Z.to_nat (get_width window))
                window extent He) as (b & _ & Hm).
    rewrite Hm in Hmask. injection Hmask as <-.
    unfold copy_slice. cbn [np_zeros np_full shape data dtype].
    apply cells_tabulate. intros r c.
    destruct (in_slice _ _ _ r && in_slice _ _ _ c); cbn [cast].
    + apply getitem_cells; [apply uint8_range_zero|].
      eapply cells_burn_in; eassumption.
    + apply getitem_cells; [apply uint8_range_zero|].
      apply cells_repeat, uint8_range_zero.
Qed.

(** X5.  As long as rasterio returns unsigned 8-bit values, every cell of a
    chip is between 0 and 255, in whichever branch the grid was made, be it
    the float64 one: a background class that does not fit is reduced modulo
    256 before it is stored, and masking only writes zeros. *)
Theorem X5_chip_cells_in_uint8_range :
  forall (self : Source) (window : Box Z) (chip : ndarray3),
    rasterize_uint8_law' ->
    fst (get_chip' self window) = Ok chip ->
    Forall (Forall (Forall uint8_range)) (data3 chip).
Proof.
  intros self window chip Hlaw Hchip. unfold _get_chip in Hchip.
  destruct (negb (activated STRtree self)); [discriminate|].
  destruct (str_tree STRtree self) as [tree|]; [|discriminate].
  cbn [fst] in Hchip.
  destruct (geojson_to_raster' tree (rasterizer_options STRtree self) window
                               (get_extent STRtree self)) as [grid|e] eqn:Hg;
    cbn [bind] in Hchip; [|discriminate].
  injection Hchip as <-. unfold expand_dims2. cbn [data3].
  pose proof (cells_geojson_to_raster _ _ _ _ _ Hlaw Hg) as Hcells.
  apply Forall_map. eapply Forall_impl; [|exact Hcells].
  intros row Hrow. apply Forall_map. eapply Forall_impl; [|exact Hrow].
  intros v Hv. now constructor.
Qed.

(** X6.  A clipped candidate that is not a LineString is handed to burn-in
    unbuffered, and if it lies in the window, as a clipped shape does, then
    in the window's frame it lies between (0, 0) and (width, height). *)
Theorem X6_reframed_shape_in_local_frame :
  forall (tree : STRtree) (lb : Q) (window : Box Z) (s : Geometry) (c : Z),
    let w := to_shapely (box_to_float window) in
    let local := transform (to_window_frame window) (intersection s w) in
    In (s, c) (query tree w) ->
    is_empty (intersection s w) = false ->
    is_LineString (intersection s w) = false ->
    withinb (box_to_float window) (intersection s w) = true ->
    In (local, c) (window_shapes' tree lb window) /\
    withinb (mkBox 0%Q 0%Q (inject_Z (get_height window))
                   (inject_Z (get_width window))) local = true.
Proof.
  intros tree lb window s c w local Hin He Hline Hwithin. split.
  - rewrite window_shapes_closed_form. fold w. apply in_map_iff.
    exists (s, c). cbn [fst snd]. split.
    + now rewrite Hline.
    + apply filter_In. split; [exact Hin|]. cbn [fst]. now rewrite He.
  - subst local. fold w in Hwithin. unfold withinb in *.
    rewrite coords_transform. rewrite forallb_forall in *.
    intros c' Hc'. apply in_map_iff in Hc'. destruct Hc' as (c0 & <- & Hc0).
    specialize (Hwithin c0 Hc0). destruct c0 as [[x y] z].
    unfold coord_x, coord_y in *.
    cbn [apply_coord to_window_frame box_to_float fst snd xmin ymin xmax ymax]
      in *.
    rewrite !andb_true_iff, !Qle_bool_iff in *.
    unfold get_height, get_width. rewrite <- !inject_Z_sub.
    repeat split; lra.
Qed.

(** X7.  For a window of positive area inside the extent the mask keeps
    everything: each cell of the grid that the rasterizer returns holds the
    value of the burned grid, shapes included. *)
Theorem X7_inside_extent_nothing_masked :
  forall (tree : STRtree) (opts : RasterizerOptions)
         (window : Box Z) (extent : Box Q) (grid : ndarray),
    rectangle_law' ->
    ymin window < ymax window -> xmin window < xmax window ->
    box_inside (box_to_float window) extent ->
    geojson_to_raster' tree opts window extent = Ok grid ->
    let sh := (Z.to_nat (get_height window), Z.to_nat (get_width window)) in
    exists burned,
      burn_in' (window_shapes' tree (line_buffer opts) window) sh
               (background_class_id opts) = Ok burned /\
      forall r c, (r < fst sh)%nat -> (c < snd sh)%nat ->
                  getitem grid r c = getitem burned r c.
Proof.
  intros tree opts window extent grid Hlaw Hy Hx Hin Hg sh.
  destruct (geojson_to_raster_ok _ _ _ _ _ Hg) as (_ & burned & Hb & Hmask).
  fold sh in Hb, Hmask. exists burned. split; [exact Hb|].
  subst sh. rewrite mask_extent_inside in Hmask by assumption.
  injection Hmask as <-. intros r c Hr Hc. cbn [fst snd] in Hr, Hc.
  rewrite getitem_copy_slice by (cbn; assumption).
  cbn [np_zeros np_full shape dtype fst snd cast].
  rewrite !in_slice_nonneg;
    try assumption; try lia; try (unfold get_height, get_width; lia).
  destruct (Z.leb_spec 0 (Z.of_nat r)); [|lia].
  destruct (Z.leb_spec 0 (Z.of_nat c)); [|lia].
  destruct (Z.ltb_spec (Z.of_nat r) (get_height window)); [|lia].
  destruct (Z.ltb_spec (Z.of_nat c) (get_width window)); [|lia].
  reflexivity.
Qed.



(** The grid of the masking branch, cell by cell, from the bounds of the
    valid part. *)
Lemma masked_grid_cells (tree : STRtree) (opts : RasterizerOptions)
      (window : Box Z) (extent : Box Q) (x0 y0 x1 y1 : Q) (grid : ndarray) :
  bounds (valid_window' window extent) = Some (x0, y0, x1, y1) ->
  withinb (box_to_float window) (valid_window' window extent) = true ->
  geojson_to_raster' tree opts window extent = Ok grid ->
  let h := Z.to_nat (get_height window) in
  let w := Z.to_nat (get_width window) in
  exists burned,
    burn_in' (window_shapes' tree (line_buffer opts) window)
             (h, w) (background_class_id opts) = Ok burned /\
    dtype grid = float64 /\
    forall r c, (r < h)%nat -> (c < w)%nat ->
      getitem grid r c =
      if ((Qfloor (y0 - inject_Z (ymin window)) <=? Z.of_nat r)
          && (Z.of_nat r <? Qfloor (y1 - inject_Z (ymin window))))
         && ((Qfloor (x0 - inject_Z (xmin window)) <=? Z.of_nat c)
             && (Z.of_nat c <? Qfloor (x1 - inject_Z (xmin window))))
      then getitem burned r c
      else 0.
Proof.
  intros Hb Hin Hg h w.
  destruct (geojson_to_raster_ok _ _ _ _ _ Hg) as (_ & burned & Hburn & Hmask).
  fold h w in Hburn, Hmask.
  assert (He : is_empty (valid_window' window extent) = false).
  { unfold is_empty. unfold bounds in Hb.
    now destruct (coords (valid_window' window extent)). }
  destruct (withinb_bounds _ _ _ _ _ _ Hin Hb) as (Hx0 & Hy0 & Hx1 & Hy1).
  cbn [box_to_float xmin ymin] in Hx0, Hy0, Hx1, Hy1.
  destruct (bounds_to_window_frame window _ _ _ _ _ Hb)
    as (b & Hfrom & Exmin & Eymin & Exmax & Eymax).
  destruct (mask_extent_nonempty burned (h, w) window extent He)
    as (b' & Hfrom' & Hm).
  rewrite Hfrom in Hfrom'. injection Hfrom' as <-.
  rewrite Hm in Hmask. injection Hmask as <-.
  exists burned. split; [exact Hburn|]. split.
  - now rewrite dtype_copy_slice.
  - intros r c Hr Hc.
    rewrite getitem_copy_slice by (cbn; assumption).
    cbn [np_zeros np_full shape dtype fst snd to_int xmin ymin xmax ymax cast].
    rewrite !in_slice_nonneg; try assumption;
      try (apply Qfloor_nonneg; lra).
    rewrite Exmin, Eymin, Exmax, Eymax.
    destruct ((Qfloor (y0 - inject_Z (ymin window)) <=? Z.of_nat r)
              && (Z.of_nat r <? Qfloor (y1 - inject_Z (ymin window)))
              && ((Qfloor (x0 - inject_Z (xmin window)) <=? Z.of_nat c)
                  && (Z.of_nat c <? Qfloor (x1 - inject_Z (xmin window)))));
      [reflexivity|].
    apply (getitem_np_zeros (h, w)); assumption.
Qed.


(** X9.  A valid part without area, as when the window only touches the
    extent along an edge, is not empty, so a grid that the rasterizer
    returns is made by the masking branch; but the valid part holds no
    pixel, and every cell of the float64 grid is 0. *)
Theorem X9_zero_area_overlap_all_zero :
  forall (tree : STRtree) (opts : RasterizerOptions)
         (window : Box Z) (extent : Box Q) (x0 y0 x1 y1 : Q) (grid : ndarray),
    bounds (valid_window' window extent) = Some (x0, y0, x1, y1) ->
    withinb (box_to_float window) (valid_window' window extent) = true ->
    (x0 == x1)%Q \/ (y0 == y1)%Q ->
    geojson_to_raster' tree opts window extent = Ok grid ->
    is_empty (valid_window' window extent) = false /\
    dtype grid = float64 /\
    forall r c,
      (r < Z.to_nat (get_height window))%nat ->
      (c < Z.to_nat (get_width window))%nat ->
      getitem grid r c = 0.
Proof.
  intros tree opts window extent x0 y0 x1 y1 grid Hb Hin Hflat Hg. split.
  { unfold is_empty. unfold bounds in Hb.
    now destruct (coords (valid_window' window extent)). }
  destruct (masked_grid_cells tree opts window extent x0 y0 x1 y1 grid
              Hb Hin Hg) as (burned & _ & Hd & Hcell).
  split; [exact Hd|].
  intros r c Hr Hc. rewrite (Hcell r c Hr Hc).
  destruct Hflat as [E|E]; rewrite E.
  - destruct (Z.leb_spec (Qfloor (x1 - inject_Z (xmin window))) (Z.of_nat c));
      destruct (Z.ltb_spec (Z.of_nat c) (Qfloor (x1 - inject_Z (xmin window))));
      try lia; now rewrite ?andb_false_r.
  - destruct (Z.leb_spec (Qfloor (y1 - inject_Z (ymin window))) (Z.of_nat r));
      destruct (Z.ltb_spec (Z.of_nat r) (Qfloor (y1 - inject_Z (ymin window))));
      try lia; now rewrite ?andb_false_r.
Qed.

(** X10.  The chip is the grid with one channel: as long as rasterio
    returns the shape it is asked for, the entry (r, c, 0) of the chip of an
    activated source is the cell (r, c) of the rasterizer's grid, and the
    chip has the element type of the grid. *)
Theorem X10_chip_channel_is_grid :
  forall (self : Source) (tree : STRtree) (window : Box Z) (grid : ndarray),
    rasterize_shape_law' ->
    activated STRtree self = true ->
    str_tree STRtree self = Some tree ->
    geojson_to_raster' tree (rasterizer_options STRtree self) window
                       (get_extent STRtree self) = Ok grid ->
    exists chip,
      fst (get_chip' self window) = Ok chip /\
      dtype3 chip = dtype grid /\
      forall r c,
        (r < Z.to_nat (get_height window))%nat ->
        (c < Z.to_nat (get_width window))%nat ->
        getitem3 chip r c 0 = getitem grid r c.
Proof.
  intros self tree window grid Hlaw Ha Ht Hg.
  exists (expand_dims2 grid).
  rewrite (get_chip_activated self window tree Ha Ht), Hg.
  split; [reflexivity|]. split; [reflexivity|].
  destruct (geojson_to_raster_shape _ _ _ _ _ Hlaw Hg) as [Hs Hws].
  intros r c Hr Hc.
  apply getitem3_expand_dims2; [exact Hws| |]; now rewrite Hs.
Qed.

End RasterizerProperties.

(** ** The reference kit meets what is asked of the geometry engine *)

Lemma clip_edge_from_keep_all (keep : Ref.Pt -> bool) cross prev vs :
  keep prev = true -> forallb keep vs = true ->
  Ref.clip_edge_from keep cross prev vs = vs.
Proof.
  revert prev. induction vs as [|v vs IH]; intros prev Hp Hall; [reflexivity|].
  cbn in Hall. apply andb_true_iff in Hall. destruct Hall as [Hv Hvs].
  cbn [Ref.clip_edge_from]. rewrite Hv, Hp. cbn [app]. f_equal. now apply IH.
Qed.

Lemma clip_edge_keep_all (keep : Ref.Pt -> bool) cross vs :
  forallb keep vs = true -> Ref.clip_edge keep cross vs = vs.
Proof.
  intros Hall. unfold Ref.clip_edge. destruct vs as [|v vs']; [reflexivity|].
  apply clip_edge_from_keep_all; [|exact Hall].
  rewrite forallb_forall in Hall. apply Hall.
  destruct (exists_last (l := v :: vs')) as (l' & a & E); [discriminate|].
  rewrite E, last_last. apply in_or_app. right. now left.
Qed.

Lemma bounds_to_shapely (b : Box Q) :
  (xmin b <= xmax b)%Q -> (ymin b <= ymax b)%Q ->
  exists x0 y0 x1 y1,
    bounds (to_shapely b) = Some (x0, y0, x1, y1) /\
    (x0 == xmin b)%Q /\ (y0 == ymin b)%Q /\ (x1 == xmax b)%Q /\ (y1 == ymax b)%Q.
Proof.
  intros Hx Hy. unfold bounds, to_shapely. cbn [coords concat app map].
  unfold coord_x, coord_y. cbn [fst snd].
  do 4 eexists. split; [reflexivity|].
  repeat split.
  - apply qmin_list_is.
    + repeat (apply Forall_cons; [lra|]); apply Forall_nil.
    + do 2 right. left. reflexivity.
  - apply qmin_list_is.
    + repeat (apply Forall_cons; [lra|]); apply Forall_nil.
    + left. reflexivity.
  - apply qmax_list_is.
    + repeat (apply Forall_cons; [lra|]); apply Forall_nil.
    + left. reflexivity.
  - apply qmax_list_is.
    + repeat (apply Forall_cons; [lra|]); apply Forall_nil.
    + right; left. reflexivity.
Qed.

Lemma Qle_bool_true (a b : Q) : (a <= b)%Q -> Qle_bool a b = true.
Proof. apply Qle_bool_iff. Qed.

Lemma ref_rectangle_law : rectangle_law Ref.intersection.
Proof.
  intros a b Hax Hay (Hx0 & Hx1 & Hy0 & Hy1).
  unfold Ref.intersection.
  destruct (bounds_to_shapely b) as (rx0 & ry0 & rx1 & ry1 & Hb & E0 & E1 & E2 & E3);
    [lra|lra|].
  rewrite Hb.
  assert (Hring :
            Ref.clip_ring (rx0, ry0, rx1, ry1)
              (map Ref.xy [ (xmax a, ymin a, None); (xmax a, ymax a, None);
                            (xmin a, ymax a, None); (xmin a, ymin a, None);
                            (xmax a, ymin a, None) ])
            = [ (xmax a, ymin a); (xmax a, ymax a); (xmin a, ymax a);
                (xmin a, ymin a); (xmax a, ymin a) ]).
  { unfold Ref.clip_ring. cbn [map removelast].
    unfold Ref.xy, coord_x, coord_y. cbn [fst snd].
    assert (Hkeep : forall keep cross,
               forallb keep [ (xmax a, ymin a); (xmax a, ymax a);
                              (xmin a, ymax a); (xmin a, ymin a) ] = true ->
               Ref.clip_edge keep cross
                 [ (xmax a, ymin a); (xmax a, ymax a);
                   (xmin a, ymax a); (xmin a, ymin a) ]
               = [ (xmax a, ymin a); (xmax a, ymax a);
                   (xmin a, ymax a); (xmin a, ymin a) ]).
    { intros keep cross. apply clip_edge_keep_all. }
    rewrite (Hkeep (fun p => Qle_bool rx0 (fst p)));
      [|cbn [forallb fst snd]; rewrite !andb_true_iff; repeat split;
        apply Qle_bool_true; lra].
    rewrite (Hkeep (fun p => Qle_bool (fst p) rx1));
      [|cbn [forallb fst snd]; rewrite !andb_true_iff; repeat split;
        apply Qle_bool_true; lra].
    rewrite (Hkeep (fun p => Qle_bool ry0 (snd p)));
      [|cbn [forallb fst snd]; rewrite !andb_true_iff; repeat split;
        apply Qle_bool_true; lra].
    rewrite (Hkeep (fun p => Qle_bool (snd p) ry1));
      [|cbn [forallb fst snd]; rewrite !andb_true_iff; repeat split;
        apply Qle_bool_true; lra].
    reflexivity. }
  unfold to_shapely at 1. cbn [Ref.clip Ref.clip_polygon].
  rewrite Hring. cbn [map filter]. unfold bounds.
  cbn [coords concat app map].
  unfold coord_x, coord_y, Ref.coord2. cbn [fst snd].
  do 4 eexists. split; [reflexivity|].
  repeat split.
  - apply qmin_list_is.
    + repeat (apply Forall_cons; [rewrite ?Qred_correct; lra|]); apply Forall_nil.
    + do 2 right. left. apply Qred_correct.
  - apply qmin_list_is.
    + repeat (apply Forall_cons; [rewrite ?Qred_correct; lra|]); apply Forall_nil.
    + left. apply Qred_correct.
  - apply qmax_list_is.
    + repeat (apply Forall_cons; [rewrite ?Qred_correct; lra|]); apply Forall_nil.
    + left. apply Qred_correct.
  - apply qmax_list_is.
    + repeat (apply Forall_cons; [rewrite ?Qred_correct; lra|]); apply Forall_nil.
    + right; left. apply Qred_correct.
Qed.

Lemma xy_drop_z (cs : list Coord) :
  map Ref.xy (map (apply_coord drop_z) cs) = map Ref.xy cs.
Proof. rewrite map_map. apply map_ext. now intros [[x y] z]. Qed.

Lemma clip_polygon_force_2d (r : Ref.Rect) (rings : list (list Coord)) :
  Ref.clip_polygon r (map (map (apply_coord drop_z)) rings)
  = Ref.clip_polygon r rings.
Proof.
  destruct rings as [|shell holes]; [reflexivity|].
  cbn [map Ref.clip_polygon]. rewrite xy_drop_z.
  destruct (Ref.clip_ring r (map Ref.xy shell)); [reflexivity|].
  do 2 f_equal. rewrite map_map. apply map_ext. intros h.
  now rewrite xy_drop_z.
Qed.

Lemma clip_force_2d (r : Ref.Rect) (g : Geometry) :
  Ref.clip r (force_2d g) = Ref.clip r g.
Proof.
  unfold force_2d. fold drop_z.
  induction g using Geometry_nested_ind; cbn [transform Ref.clip];
    rewrite ?xy_drop_z; try reflexivity.
  - now rewrite clip_polygon_force_2d.
  - f_equal. rewrite flat_map_concat_map, map_map, <- flat_map_concat_map.
    apply flat_map_ext. intros l. now rewrite xy_drop_z.
  - do 2 f_equal. rewrite map_map. apply map_ext. intros p.
    apply clip_polygon_force_2d.
  - do 2 f_equal. rewrite map_map. now apply map_ext_Forall.
Qed.

Lemma bounds_force_2d (g : Geometry) : bounds (force_2d g) = bounds g.
Proof.
  unfold bounds, force_2d. rewrite coords_transform.
  destruct (coords g) as [|[[x y] z] cs]; [reflexivity|].
  cbn [map apply_coord]. unfold coord_x, coord_y. cbn [fst snd].
  rewrite !map_map.
  rewrite (map_ext (fun c => fst (fst (apply_coord (fun x y _ => (x, y)) c)))
                   (fun c => fst (fst c))) by (now intros [[? ?] ?]).
  rewrite (map_ext (fun c => snd (fst (apply_coord (fun x y _ => (x, y)) c)))
                   (fun c => snd (fst c))) by (now intros [[? ?] ?]).
  reflexivity.
Qed.

Lemma buffer_force_2d (g : Geometry) (d : Q) :
  Ref.buffer (force_2d g) d = Ref.buffer g d.
Proof.
  destruct g;
    try (unfold Ref.buffer; rewrite bounds_force_2d; reflexivity).
  unfold force_2d. cbn [transform Ref.buffer]. fold drop_z.
  now rewrite xy_drop_z.
Qed.

Lemma ref_footprint_laws :
  footprint_laws Ref.intersection Ref.buffer Ref.STRtree Ref.STRtree_build
                 Ref.query.
Proof.
  split; [|split].
  - intros s s' w H. unfold Ref.intersection.
    destruct (bounds w) as [r|]; [|reflexivity].
    now rewrite <- (clip_force_2d r s), H, clip_force_2d.
  - intros s s' d H.
    now rewrite <- (buffer_force_2d s), H, buffer_force_2d.
  - intros shapes shapes' w H. unfold Ref.query, Ref.STRtree_build.
    destruct (bounds w) as [r|]; [|constructor].
    apply Forall2_filter; [|exact H].
    intros [g c] [g' c'] [Hg _]. cbn [fst] in *.
    now rewrite <- (bounds_force_2d g), Hg, bounds_force_2d.
Qed.

(** ** The properties at work on the scenes *)

Lemma ref_rasterize_shape_law : rasterize_shape_law Ref.rasterize.
Proof.
  intros shapes out_shape fill raster H. unfold Ref.rasterize in H.
  destruct (Ref.refused shapes out_shape fill); [discriminate|].
  injection H as <-. reflexivity.
Qed.

Lemma ref_rasterize_uint8_law : rasterize_uint8_law Ref.rasterize.
Proof.
  intros shapes out_shape fill raster H. unfold Ref.rasterize in H.
  destruct (Ref.refused shapes out_shape fill); [discriminate|].
  injection H as <-. cbn [data].
  apply cells_tabulate. intros r c. cbn [cast]. unfold uint8_range.
  pose proof (Z.mod_pos_bound (Ref.paint shapes fill (Ref.centre r c)) 256).
  lia.
Qed.

(** The example of the specification: a 30 by 30 grid of zeros except the
    square of fives; the fives sit in a float64 array. *)
Example spec_example :
  exists grid,
    Ref.geojson_to_raster Scenes.spec_shapes (mkOptions 0 0)
                          Scenes.spec_window Scenes.spec_extent = Ok grid /\
    shape grid = (30%nat, 30%nat) /\
    dtype grid = float64 /\
    forall r c, (r < 30)%nat -> (c < 30)%nat ->
      getitem grid r c =
      if ((10 <=? r) && (r <? 20) && ((10 <=? c) && (c <? 20)))%nat
      then 5 else 0.
Proof.
  eexists. split; [vm_compute; reflexivity|].
  split; [reflexivity|]. split; [reflexivity|].
  intros r c Hr Hc.
  do 30 (destruct r as [|r]; [do 30 (destruct c as [|c]; [reflexivity|]); lia|]).
  lia.
Qed.

(** A line buffered by nothing leaves rasterio without a shape to burn: the
    rasterizer fails. *)
Example line_buffer_zero_fails :
  Ref.geojson_to_raster Scenes.shapes_line Scenes.options_0 Scenes.window_10
                        Scenes.extent8 = Raise ValueError.
Proof. vm_compute. reflexivity. Qed.

Lemma C1_witness :
  exists chip,
    fst (Ref._get_chip Scenes.active_a Scenes.window_a) = Ok chip /\
    dtype3 chip = float64 /\
    dtype3 chip <> get_dtype Ref.STRtree Scenes.active_a.
Proof.
  eexists. split; [vm_compute; reflexivity|].
  edestruct (C1_masked_grid_is_float64
               Ref.intersection Ref.buffer Ref.rasterize Ref.STRtree Ref.query
               Scenes.active_a Scenes.shapes_a Scenes.window_a)
    as (grid & _ & _ & _ & Hd & Hne).
  - reflexivity.
  - reflexivity.
  - vm_compute. reflexivity.
  - vm_compute. reflexivity.
  - split; [exact Hd|exact Hne].
Defined.

Lemma C3_witness :
  exists grid,
    Ref.geojson_to_raster Scenes.shapes_out Scenes.options_a Scenes.window_out
                          Scenes.extent8 = Ok grid /\
    shape grid = (4%nat, 4%nat) /\
    data grid = repeat (repeat 0 4%nat) 4%nat /\
    forall r c, (r < 4)%nat -> (c < 4)%nat -> getitem grid r c = 0.
Proof.
  eexists. split; [vm_compute; reflexivity|].
  apply (C3_outside_extent_all_zero
           Ref.intersection Ref.buffer Ref.rasterize Ref.STRtree Ref.query
           Scenes.shapes_out Scenes.options_a Scenes.window_out Scenes.extent8).
  - exact ref_rasterize_shape_law.
  - vm_compute. reflexivity.
  - vm_compute. reflexivity.
Defined.


Lemma C5_witness :
  exists grid b burned,
    Ref.geojson_to_raster Scenes.shapes_full Scenes.options_a Scenes.window_5
                          Scenes.extent_frac = Ok grid /\
    from_shapely (transform (to_window_frame Scenes.window_5)
                            (valid_window Ref.intersection Scenes.window_5
                                          Scenes.extent_frac)) = Ok b /\
    burn_in Ref.rasterize
            (Ref.window_shapes Scenes.shapes_full 1%Q Scenes.window_5)
            (5%nat, 5%nat) 9 = Ok burned /\
    forall r c, (r < 5)%nat -> (c < 5)%nat ->
      getitem grid r c =
      if ((Qfloor (ymin b) <=? Z.of_nat r) && (Z.of_nat r <? Qfloor (ymax b)))
         && ((Qfloor (xmin b) <=? Z.of_nat c) && (Z.of_nat c <? Qfloor (xmax b)))
      then getitem burned r c
      else 0.
Proof.
  eexists.
  assert (Hg : Ref.geojson_to_raster Scenes.shapes_full Scenes.options_a
                 Scenes.window_5 Scenes.extent_frac = Ok ?[grid])
    by (vm_compute; reflexivity).
  destruct (C5_extent_mask
              Ref.intersection Ref.buffer Ref.rasterize Ref.STRtree Ref.query
              Scenes.shapes_full Scenes.options_a Scenes.window_5
              Scenes.extent_frac _ eq_refl eq_refl Hg)
    as (b & burned & Hfrom & Hburn & Hcell).
  exists b, burned. split; [exact Hg|]. split; [exact Hfrom|].
  split; [exact Hburn|exact Hcell].
Defined.

Lemma C6_witness :
  Ref.window_shapes Scenes.shapes_far 1%Q Scenes.window_in = [] /\
  exists grid chip,
    Ref.geojson_to_raster Scenes.shapes_far Scenes.options_a Scenes.window_in
                          Scenes.extent8 = Ok grid /\
    fst (Ref._get_chip Scenes.active_far Scenes.window_in) = Ok chip /\
    chip = expand_dims2 grid /\
    forall r c, (r < 2)%nat -> (c < 2)%nat ->
                getitem grid r c = 9 /\ getitem3 chip r c 0 = 9.
Proof.
  apply (C6_background_inside_extent
           Ref.intersection Ref.buffer Ref.rasterize Ref.STRtree Ref.query
           Scenes.active_far Scenes.shapes_far Scenes.window_in).
  - exact ref_rectangle_law.
  - reflexivity.
  - reflexivity.
  - split; vm_compute; discriminate.
  - repeat split; vm_compute; discriminate.
  - intros s c Hin. vm_compute in Hin. destruct Hin as [Heq|[]].
    injection Heq as <- <-. vm_compute. reflexivity.
  - split; vm_compute; discriminate.
Defined.

Lemma C8_witness :
  exists chip grid,
    fst (Ref._get_chip Scenes.active_a Scenes.window_a) = Ok chip /\
    Ref.geojson_to_raster Scenes.shapes_a Scenes.options_a Scenes.window_a
                          Scenes.extent8 = Ok grid /\
    shape grid = (4%nat, 4%nat) /\
    chip = expand_dims2 grid /\
    shape3 chip = (4%nat, 4%nat, 1%nat) /\
    length (data3 chip) = 4%nat /\
    Forall (fun row => length row = 4%nat /\
                       Forall (fun cell => length cell = 1%nat) row)
           (data3 chip).
Proof.
  eexists.
  assert (Hchip : fst (Ref._get_chip Scenes.active_a Scenes.window_a)
                  = Ok ?[chip]) by (vm_compute; reflexivity).
  destruct (C8_chip_shape
              Ref.intersection Ref.buffer Ref.rasterize Ref.STRtree Ref.query
              Scenes.active_a Scenes.shapes_a Scenes.window_a _
              ref_rasterize_shape_law eq_refl eq_refl Hchip)
    as (grid & Hg & Hs & Hc & Hs3 & Hlen & Hrows).
  exists grid. split; [exact Hchip|]. split; [exact Hg|].
  split; [exact Hs|]. split; [exact Hc|]. split; [exact Hs3|].
  split; [exact Hlen|exact Hrows].
Defined.

Lemma C10_witness :
  Ref.geojson_to_raster (Ref.STRtree_build Scenes.shapes_3d) Scenes.options_a
                        Scenes.window_a Scenes.extent8
  = Ref.geojson_to_raster (Ref.STRtree_build Scenes.shapes_2d) Scenes.options_a
                          Scenes.window_a Scenes.extent8.
Proof.
  apply (proj2 (proj2 (C10_z_is_discarded
                         Ref.intersection Ref.buffer Ref.rasterize Ref.STRtree
                         Ref.STRtree_build Ref.query))).
  - exact ref_footprint_laws.
  - constructor; [|constructor]. split; reflexivity.
Defined.

Lemma C2_witness :
  In (transform (to_window_frame Scenes.window_10)
                (Ref.buffer
                   (Ref.intersection
                      (LineString [(2%Q, 3%Q, None); (5%Q, 3%Q, None)])
                      (to_shapely (box_to_float Scenes.window_10)))
                   1%Q),
      7)
     (Ref.window_shapes Scenes.shapes_line 1%Q Scenes.window_10).
Proof.
  apply (proj2 (C2_buffer_after_clip
                  Ref.intersection Ref.buffer Ref.STRtree Ref.query
                  Scenes.shapes_line 1%Q Scenes.window_10)).
  - vm_compute. left. reflexivity.
  - vm_compute. reflexivity.
  - vm_compute. reflexivity.
Defined.

(** C2, as first stated, fails: the clipped candidate is a line in two
    parts, and it reaches burn-in as clipped, not buffered. *)
Lemma C2_counterexample :
  let w := to_shapely (box_to_float Scenes.window_10) in
  let twf := transform (to_window_frame Scenes.window_10) in
  exists s c,
    In (s, c) (Ref.query Scenes.shapes_v w) /\
    is_empty (Ref.intersection s w) = false /\
    Scenes.is_line (Ref.intersection s w) = true /\
    Ref.window_shapes Scenes.shapes_v 1%Q Scenes.window_10
    = [(twf (Ref.intersection s w), c)] /\
    ~ In (twf (Ref.buffer (Ref.intersection s w) 1%Q), c)
         (Ref.window_shapes Scenes.shapes_v 1%Q Scenes.window_10).
Proof.
  intros w twf.
  exists (LineString [(2%Q, 3%Q, None); (5%Q, (-3)%Q, None); (8%Q, 3%Q, None)]), 7.
  split; [vm_compute; left; reflexivity|].
  split; [vm_compute; reflexivity|].
  split; [vm_compute; reflexivity|].
  split; [vm_compute; reflexivity|].
  vm_compute. intros [H|[]]. discriminate H.
Qed.

(** C6, as first stated, fails: a background class of 300 does not fit an
    unsigned 8-bit cell, and the chip holds 44 instead. *)
Lemma C6_counterexample :
  box_inside (box_to_float Scenes.window_in)
             (get_extent Ref.STRtree Scenes.active_300) /\
  (forall s c,
      In (s, c) (Ref.query Scenes.shapes_far
                           (to_shapely (box_to_float Scenes.window_in))) ->
      is_empty (Ref.intersection
                  s (to_shapely (box_to_float Scenes.window_in))) = true) /\
  exists chip,
    fst (Ref._get_chip Scenes.active_300 Scenes.window_in) = Ok chip /\
    getitem3 chip 0 0 0 = 44 /\
    getitem3 chip 0 0 0
    <> background_class_id (rasterizer_options Ref.STRtree Scenes.active_300).
Proof.
  split; [repeat split; vm_compute; discriminate|].
  split.
  - intros s c Hin. vm_compute in Hin. destruct Hin as [Heq|[]].
    injection Heq as <- <-. vm_compute. reflexivity.
  - eexists. split; [vm_compute; reflexivity|].
    split; [reflexivity|]. vm_compute. discriminate.
Qed.

(** ** The further properties at work on the scenes *)


Lemma X5_witness :
  exists chip,
    fst (Ref._get_chip Scenes.active_300 Scenes.window_in) = Ok chip /\
    Forall (Forall (Forall uint8_range)) (data3 chip).
Proof.
  eexists. split; [vm_compute; reflexivity|].
  apply (X5_chip_cells_in_uint8_range
           Ref.intersection Ref.buffer Ref.rasterize Ref.STRtree Ref.query
           Scenes.active_300 Scenes.window_in).
  - exact ref_rasterize_uint8_law.
  - vm_compute. reflexivity.
Defined.

Lemma X6_witness :
  let clipped :=
    Ref.intersection (fst (hd (Point [], 0) Scenes.shapes_tri))
                     (to_shapely (box_to_float Scenes.window_a)) in
  let local := transform (to_window_frame Scenes.window_a) clipped in
  In (local, 2) (Ref.window_shapes Scenes.shapes_tri 1%Q Scenes.window_a) /\
  withinb (mkBox 0%Q 0%Q (inject_Z (get_height Scenes.window_a))
                 (inject_Z (get_width Scenes.window_a))) local = true.
Proof.
  apply (X6_reframed_shape_in_local_frame
           Ref.intersection Ref.buffer Ref.STRtree Ref.query
           Scenes.shapes_tri 1%Q Scenes.window_a).
  - vm_compute. left. reflexivity.
  - vm_compute. reflexivity.
  - vm_compute. reflexivity.
  - vm_compute. reflexivity.
Defined.

Lemma X7_witness :
  exists grid burned,
    Ref.geojson_to_raster Scenes.shapes_tri Scenes.options_a Scenes.window_a
                          Scenes.extent8 = Ok grid /\
    burn_in Ref.rasterize
            (Ref.window_shapes Scenes.shapes_tri 1%Q Scenes.window_a)
            (4%nat, 4%nat) 9 = Ok burned /\
    forall r c, (r < 4)%nat -> (c < 4)%nat ->
                getitem grid r c = getitem burned r c.
Proof.
  eexists.
  assert (Hg : Ref.geojson_to_raster Scenes.shapes_tri Scenes.options_a
                 Scenes.window_a Scenes.extent8 = Ok ?[grid])
    by (vm_compute; reflexivity).
  assert (Hin : box_inside (box_to_float Scenes.window_a) Scenes.extent8)
    by (repeat split; vm_compute; discriminate).
  destruct (X7_inside_extent_nothing_masked
              Ref.intersection Ref.buffer Ref.rasterize Ref.STRtree Ref.query
              Scenes.shapes_tri Scenes.options_a Scenes.window_a Scenes.extent8
              _ ref_rectangle_law eq_refl eq_refl Hin Hg)
    as (burned & Hburn & Hcell).
  exists burned. split; [exact Hg|]. split; [exact Hburn|exact Hcell].
Defined.


Lemma X9_witness :
  exists grid,
    Ref.geojson_to_raster Scenes.shapes_a Scenes.options_a Scenes.window_a
                          Scenes.extent_touch = Ok grid /\
    is_empty (valid_window Ref.intersection Scenes.window_a Scenes.extent_touch)
    = false /\
    dtype grid = float64 /\
    forall r c, (r < 4)%nat -> (c < 4)%nat -> getitem grid r c = 0.
Proof.
  eexists. split; [vm_compute; reflexivity|].
  apply (X9_zero_area_overlap_all_zero
           Ref.intersection Ref.buffer Ref.rasterize Ref.STRtree Ref.query
           Scenes.shapes_a Scenes.options_a Scenes.window_a Scenes.extent_touch
           4%Q 0%Q 4%Q 4%Q).
  - vm_compute. reflexivity.
  - vm_compute. reflexivity.
  - left. reflexivity.
  - vm_compute. reflexivity.
Defined.

Lemma X10_witness :
  exists chip,
    fst (Ref._get_chip Scenes.active_a Scenes.window_a) = Ok chip /\
    dtype3 chip = float64 /\
    getitem3 chip 1 1 0 = 5.
Proof.
  edestruct (X10_chip_channel_is_grid
               Ref.intersection Ref.buffer Ref.rasterize Ref.STRtree Ref.query
               Scenes.active_a Scenes.shapes_a Scenes.window_a)
    as (chip & Hchip & Hd & Hcell).
  - exact ref_rasterize_shape_law.
  - reflexivity.
  - reflexivity.
  - vm_compute. reflexivity.
  - exists chip. split; [exact Hchip|]. split; [exact Hd|].
    rewrite (Hcell 1%nat 1%nat); [reflexivity|vm_compute; lia|vm_compute; lia].
Defined.
